(** * S33R news aggregator: [scripts/build_news_json.py]

    A shallow embedding of the feed-aggregation script and the proofs of
    the properties its specification states about it.

    Modelling conventions.
    - A Python [str] is the [string] of its UTF-8 bytes.  What the script
      does with a [str] reads the same on the bytes: emptiness, equality,
      [k in t] for an ASCII keyword [k], [rstrip("/")], [join].  The one
      exception is [str.lower], which works by the Unicode tables; it is a
      parameter, with the two of its laws that the proofs use.
    - A Python value tested for truth ([if x], [x or y], [not x]) that is
      either [None] or a [str] is an [option string]; it is truthy exactly
      when it is [Some] of a non-empty string.
    - [datetime] keeps the wall-clock reading as a number of microseconds
      and the UTC offset of its [tzinfo], if any.  Comparing an aware with a
      naive [datetime] raises [TypeError], as in Python.
    - The functions of Python's library whose behaviour the script does not
      fix ([datetime.fromisoformat], [datetime.isoformat], [time.mktime],
      the range of [datetime.fromtimestamp], the rounding of a quotient to
      a [float], the local-time reading of a naive [datetime]) are the
      fields of a class; what they raise is part of the model.
    - The [dict] [all_items] is an association list in insertion order,
      which is the order [dict.values()] yields. *)

From Stdlib Require Import ZArith Lia Bool List Ascii String.
From Stdlib Require Import Sorting.Sorted Sorting.Permutation.
Import ListNotations.
Open Scope string_scope.
Open Scope list_scope.

(** ** Python strings *)

Module PyStr.

(** [bool(s)] for a [str]. *)
Definition nonempty (s : string) : bool :=
  match s with
  | EmptyString => false
  | String _ _ => true
  end.

(** [s.lower()].  Python lower-cases by the Unicode tables and not one
    character at a time (a capital sigma becomes one of two letters by
    its place in the word), so the function is a parameter.  Its two
    fields of proof are laws of [str.lower]: lower-casing a second time
    changes nothing, and the empty string stays empty. *)
Class Lower := {
  lower : string -> string;
  lower_again : forall s, lower (lower s) = lower s;
  lower_empty : lower EmptyString = EmptyString
}.

(** [str.lower] as it is on titles of ASCII characters, to run the
    classifier on such titles. *)
Definition lower_ascii (c : ascii) : ascii :=
  let n := nat_of_ascii c in
  if andb (Nat.leb 65 n) (Nat.leb n 90) then ascii_of_nat (n + 32) else c.

Fixpoint ascii_lower (s : string) : string :=
  match s with
  | EmptyString => EmptyString
  | String c r => String (lower_ascii c) (ascii_lower r)
  end.

Definition lower_ascii_again (c : ascii) :
  lower_ascii (lower_ascii c) = lower_ascii c.
Proof.
  destruct c as [[] [] [] [] [] [] [] []]; reflexivity.
Qed.

Definition ascii_lower_again (s : string) :
  ascii_lower (ascii_lower s) = ascii_lower s.
Proof.
  induction s as [|c s IH]; simpl; [reflexivity|].
  now rewrite lower_ascii_again, IH.
Qed.

Definition ascii_text : Lower :=
  {| lower := ascii_lower;
     lower_again := ascii_lower_again;
     lower_empty := eq_refl |}.

(** [t.startswith(k)] *)
Fixpoint startswith (k t : string) : bool :=
  match k, t with
  | EmptyString, _ => true
  | String _ _, EmptyString => false
  | String a k', String b t' => andb (Ascii.eqb a b) (startswith k' t')
  end.

(** [k in t] for two strings: [k] occurs in [t] as a substring. *)
Fixpoint contains (k t : string) : bool :=
  orb (startswith k t)
      match t with
      | EmptyString => false
      | String _ t' => contains k t'
      end.

(** The relation [contains] decides. *)
Definition substring_of (k t : string) : Prop :=
  exists pre post, t = (pre ++ k ++ post)%string.

(** [s.rstrip("/")]: every trailing ["/"] is removed. *)
Fixpoint rstrip_slash (s : string) : string :=
  match s with
  | EmptyString => EmptyString
  | String c r =>
      let r' := rstrip_slash r in
      if andb (negb (nonempty r')) (Ascii.eqb c "/") then EmptyString
      else String c r'
  end.

(** [n] copies of ["/"]. *)
Fixpoint slashes (n : nat) : string :=
  match n with
  | O => EmptyString
  | S n' => String "/" (slashes n')
  end.

(** [s.endswith("/")] *)
Fixpoint endswith_slash (s : string) : bool :=
  match s with
  | EmptyString => false
  | String c EmptyString => Ascii.eqb c "/"
  | String _ r => endswith_slash r
  end.

(** [x or y] where both are [None] or a [str]. *)
Definition truthy (x : option string) : bool :=
  match x with
  | Some s => nonempty s
  | None => false
  end.

Definition por (x y : option string) : option string :=
  if truthy x then x else y.

(** The value of a truthy operand, [""] otherwise. *)
Definition str_or_empty (x : option string) : string :=
  match x with
  | Some s => s
  | None => EmptyString
  end.

End PyStr.

(** ** Category classifier *)

Definition CATEGORY_KEYWORDS : list (string * list string) :=
  [ ("crypto", ["crypto"; "blockchain"]);
    ("cybercrime", ["cybercrime"; "darknet"]);
    ("dfir", ["dfir"; "forensics"]);
    ("general", ["general"; "security news"; "infosec"]);
    ("gov_cert", ["cert"; "government"; "gov"]);
    ("leaks", ["leaks"; "breaches"; "pwned"]);
    ("malware", ["malware"; "ransomware"]);
    ("threat_intel", ["threat intel"; "apt"; "campaigns"]);
    ("malware_analysis", ["malware analysis"; "reversing"]);
    ("osint", ["osint"; "communities"]);
    ("podcasts", ["podcast"]);
    ("vendors", ["vendor"]);
    ("vulns", ["vulnerab"; "cve"]);
    ("exploits", ["exploit"; "0day"]);
    ("vuln_advisories", ["advisories"; "advisory"]) ].

(** [any(k in t for k in keywords)] *)
Definition any_keyword (keywords : list string) (t : string) : bool :=
  existsb (fun k => PyStr.contains k t) keywords.

(** The [for cat, keywords in ...items()] loop over a table, with the
    [return "general"] that follows it. *)
Fixpoint scan_table (table : list (string * list string)) (t : string) : string :=
  match table with
  | [] => "general"
  | (cat, keywords) :: rest =>
      if any_keyword keywords t then cat else scan_table rest t
  end.

Section Classifier.
Context {text : PyStr.Lower}.

Definition guess_category_from_title (title : string) : string :=
  let t := PyStr.lower title in
  scan_table CATEGORY_KEYWORDS t.

End Classifier.

(** ** Subscription loader *)

(** [" / ".join(parts)] *)
Fixpoint join (sep : string) (parts : list string) : string :=
  match parts with
  | [] => EmptyString
  | [p] => p
  | p :: rest => (p ++ sep ++ join sep rest)%string
  end.

(** [x in seen] for the set of feed URLs already emitted. *)
Definition in_seen (x : string) (seen : list string) : bool :=
  existsb (String.eqb x) seen.

(** The attributes of one [<outline>] element that [parse_opml] reads,
    each as [elem.attrib.get(...)] returns it. *)
Record Outline := mk_outline {
  attrib_xmlUrl : option string;
  attrib_title : option string;
  attrib_text : option string
}.

Definition Feed : Type := (string * string * string)%type.

Section Loader.
Context {text : PyStr.Lower}.

(** The body of the [for elem in body.findall(".//outline")] loop, with
    the two accumulators [feeds] and [seen]. *)
Fixpoint opml_loop (elems : list Outline) (feeds : list Feed) (seen : list string)
  : list Feed :=
  match elems with
  | [] => feeds
  | elem :: rest =>
      let xml_url := attrib_xmlUrl elem in
      if orb (negb (PyStr.truthy xml_url)) (in_seen (PyStr.str_or_empty xml_url) seen)
      then opml_loop rest feeds seen
      else
        let url := PyStr.str_or_empty xml_url in
        let seen' := url :: seen in
        let title :=
          PyStr.str_or_empty
            (PyStr.por (PyStr.por (attrib_title elem) (attrib_text elem)) xml_url) in
        let cat :=
          guess_category_from_title
            (join " / "
               (filter PyStr.nonempty
                  [PyStr.str_or_empty
                     (PyStr.por (PyStr.por (attrib_title elem) (attrib_text elem))
                                (Some EmptyString))])) in
        opml_loop rest (feeds ++ [(title, url, cat)]) seen'
  end.

(** [parse_opml]: [body] is [root.find("body")] with its outline elements
    in document order, [None] when the document has no body. *)
Definition parse_opml (body : option (list Outline)) : list Feed :=
  match body with
  | None => []
  | Some elems => opml_loop elems [] []
  end.

End Loader.

(** ** Time *)

(** A [datetime]: [wall] is the wall-clock reading in microseconds since
    1970-01-01T00:00:00 of the same calendar, [tzinfo] the UTC offset in
    microseconds of an aware value, [None] for a naive one. *)
Record datetime := mk_datetime {
  wall : Z;
  tzinfo : option Z
}.

(** [time.struct_time] *)
Record struct_time := mk_struct_time {
  tm_year : Z; tm_mon : Z; tm_mday : Z;
  tm_hour : Z; tm_min : Z; tm_sec : Z;
  tm_wday : Z; tm_yday : Z; tm_isdst : Z
}.

(** Exceptions that escape the script's [try] blocks: [TypeError] from a
    comparison of datetimes, and [TimeError] for what [time.mktime] or
    [datetime.fromtimestamp] raises on a value out of their range
    ([OverflowError], [ValueError] or [OSError]). *)
Inductive exn := TypeError | TimeError.

Inductive result (A : Type) : Type :=
| Ok (a : A)
| Raise (e : exn).
Arguments Ok {A} a.
Arguments Raise {A} e.

Definition bind {A B : Type} (m : result A) (f : A -> result B) : result B :=
  match m with
  | Ok a => f a
  | Raise e => Raise e
  end.

Notation "x <- m ;; k" := (bind m (fun x => k))
  (at level 61, m at next level, right associativity).

(** [a < b], [a <= b] on [datetime]: both naive compares the readings,
    both aware compares the instants, mixed raises [TypeError]. *)
Definition dt_compare (a b : datetime) : result comparison :=
  match tzinfo a, tzinfo b with
  | None, None => Ok (wall a ?= wall b)%Z
  | Some oa, Some ob => Ok ((wall a - oa) ?= (wall b - ob))%Z
  | _, _ => Raise TypeError
  end.

Definition dt_lt (a b : datetime) : result bool :=
  c <- dt_compare a b ;;
  Ok match c with Lt => true | _ => false end.

Definition dt_le (a b : datetime) : result bool :=
  c <- dt_compare a b ;;
  Ok match c with Gt => false | _ => true end.

(** [d.replace(tzinfo=timezone.utc)] *)
Definition replace_utc (d : datetime) : datetime :=
  mk_datetime (wall d) (Some 0%Z).

Definition DAYS_BACK : Z := 30.

(** [now - timedelta(days=DAYS_BACK)], [now] being
    [datetime.now(timezone.utc)] given by its reading in microseconds. *)
Definition cutoff_of (now : Z) : datetime :=
  mk_datetime (now - DAYS_BACK * 86400000000)%Z (Some 0%Z).

(** The instant of an aware [datetime], in microseconds. *)
Definition instant (d : datetime) : option Z :=
  match tzinfo d with
  | Some off => Some (wall d - off)%Z
  | None => None
  end.

(** ** Entries and items *)

(** What [parse_entry] reads of a feedparser entry: [attr_*] is
    [getattr(entry, name, None)], [get_*] is [entry.get(name)]. *)
Record RawEntry := mk_entry {
  attr_title : option string;
  get_title : option string;
  attr_link : option string;
  get_link : option string;
  attr_summary : option string;
  get_summary : option string;
  get_description : option string;
  attr_published_parsed : option struct_time;
  attr_updated_parsed : option struct_time;
  get_published : option string;
  get_updated : option string
}.

(** The dictionary [parse_entry] returns. *)
Record NewsItem := mk_item {
  item_title : string;
  item_link : string;
  item_summary : string;
  item_source : string;
  item_category : string;
  item_published : option string
}.

(** [all_items]: keys in insertion order. *)
Definition dict : Type := list (string * NewsItem).

Fixpoint dict_get (k : string) (d : dict) : option NewsItem :=
  match d with
  | [] => None
  | (k', v) :: rest => if String.eqb k k' then Some v else dict_get k rest
  end.

(** [d[k] = v]: an existing key keeps its place. *)
Fixpoint dict_set (k : string) (v : NewsItem) (d : dict) : dict :=
  match d with
  | [] => [(k, v)]
  | (k', v') :: rest =>
      if String.eqb k k' then (k', v) :: rest else (k', v') :: dict_set k v rest
  end.

Definition dict_keys (d : dict) : list string := map fst d.
Definition dict_values (d : dict) : list NewsItem := map snd d.

(** [items_list.sort(key=key, reverse=True)]: stable, largest key first. *)
Section Sort.
Variable key : NewsItem -> Z.

Fixpoint insert_desc (x : NewsItem) (l : list NewsItem) : list NewsItem :=
  match l with
  | [] => [x]
  | y :: r => if (key x <? key y)%Z then y :: insert_desc x r else x :: y :: r
  end.

Fixpoint sort_desc (l : list NewsItem) : list NewsItem :=
  match l with
  | [] => []
  | x :: r => insert_desc x (sort_desc r)
  end.

(** The order of the sorted list. *)
Definition key_ge (a b : NewsItem) : Prop := (key b <= key a)%Z.
End Sort.

(** ** The library functions the script calls

    [fromisoformat s] is [None] when [datetime.fromisoformat(s)] raises.
    [mktime st] reads a [struct_time] as local time and gives seconds; it
    is [None] when [time.mktime] raises.  [fromtimestamp_returns t] tells
    whether [datetime.fromtimestamp(t, tz=timezone.utc)] returns, which it
    does not for an instant outside the years [datetime] can hold.

    A Python [float] is written as the integer number of units of
    [2^-1074] it is worth (every finite double is such a number), so that
    floats compare as these integers do and [0.0] is [0].
    [total_seconds us] is the float [us / 10**6], the value of
    [timedelta.total_seconds()] for [us] microseconds: the double nearest
    to the quotient.  [naive_timestamp w] is the float [.timestamp()]
    gives for a naive value of reading [w] (local time), [None] when it
    raises. *)
Class TimeLib := {
  fromisoformat : string -> option datetime;
  isoformat : datetime -> string;
  mktime : struct_time -> option Z;
  fromtimestamp_returns : Z -> bool;
  total_seconds : Z -> Z;
  naive_timestamp : Z -> option Z
}.

Section Pipeline.
Context {lib : TimeLib}.

(** *** Entry normalizer *)

(** [datetime.fromtimestamp(t, tz=timezone.utc)], [t] in seconds: when
    the call returns, the aware value at that instant. *)
Definition fromtimestamp_utc (t : Z) : option datetime :=
  if fromtimestamp_returns t
  then Some (mk_datetime (t * 1000000)%Z (Some 0%Z))
  else None.

(** [datetime.fromtimestamp(time.mktime(st), tz=timezone.utc)]; neither
    call is inside a [try]. *)
Definition from_struct_time (st : struct_time) : result datetime :=
  match mktime st with
  | Some t =>
      match fromtimestamp_utc t with
      | Some d => Ok d
      | None => Raise TimeError
      end
  | None => Raise TimeError
  end.

(** The [published] resolution of [parse_entry]. *)
Definition resolve_published (entry : RawEntry) : result (option datetime) :=
  match attr_published_parsed entry with
  | Some st => published <- from_struct_time st ;; Ok (Some published)
  | None =>
      match attr_updated_parsed entry with
      | Some st => published <- from_struct_time st ;; Ok (Some published)
      | None =>
          let raw_date := PyStr.por (get_published entry) (get_updated entry) in
          Ok (if PyStr.truthy raw_date then
                match fromisoformat (PyStr.str_or_empty raw_date) with
                | Some published =>
                    match tzinfo published with
                    | None => Some (replace_utc published)
                    | Some _ => Some published
                    end
                | None => None
                end
              else None)
      end
  end.

(** [parse_entry]: [Ok None] is its [return None], [Raise] an exception
    that leaves it. *)
Definition parse_entry (entry : RawEntry) (source_title category : string)
  : result (option NewsItem) :=
  let title := PyStr.por (attr_title entry) (get_title entry) in
  let link := PyStr.por (attr_link entry) (get_link entry) in
  if orb (negb (PyStr.truthy title)) (negb (PyStr.truthy link)) then Ok None
  else
    let summary :=
      PyStr.por
        (PyStr.por (PyStr.por (attr_summary entry) (get_summary entry))
                   (get_description entry))
        (Some EmptyString) in
    published <- resolve_published entry ;;
    Ok (Some {| item_title := PyStr.str_or_empty title;
                item_link := PyStr.str_or_empty link;
                item_summary := PyStr.str_or_empty summary;
                item_source := source_title;
                item_category := category;
                item_published := option_map isoformat published |}).

(** *** Aggregation loop of [main] *)

(** [pub_dt]: the incoming item's [published], parsed again. *)
Definition pub_dt_of (item : NewsItem) : option datetime :=
  match item_published item with
  | Some pub_str =>
      if PyStr.nonempty pub_str then
        match fromisoformat pub_str with
        | Some pub_dt =>
            match tzinfo pub_dt with
            | None => Some (replace_utc pub_dt)
            | Some _ => Some pub_dt
            end
        | None => None
        end
      else None
  | None => None
  end.

(** [existing_dt]: the stored item's [published], parsed again. *)
Definition existing_dt_of (existing : NewsItem) : option datetime :=
  match item_published existing with
  | Some p => if PyStr.nonempty p then fromisoformat p else None
  | None => None
  end.

(** [pub_dt and pub_dt < cutoff] *)
Definition before_cutoff (pub_dt : option datetime) (cutoff : datetime)
  : result bool :=
  match pub_dt with
  | Some d => dt_lt d cutoff
  | None => Ok false
  end.

(** [existing_dt and pub_dt and pub_dt <= existing_dt] *)
Definition not_newer (existing_dt pub_dt : option datetime) : result bool :=
  match existing_dt, pub_dt with
  | Some e, Some p => dt_le p e
  | _, _ => Ok false
  end.

(** The key under which an item is stored. *)
Definition canonical_link (l : string) : string := PyStr.rstrip_slash l.

(** The merge: from [link = item["link"].rstrip("/")] to
    [all_items[link] = item]. *)
Definition merge_item (all_items : dict) (item : NewsItem)
           (pub_dt : option datetime) : result dict :=
  let link := canonical_link (item_link item) in
  match dict_get link all_items with
  | Some existing =>
      let existing_dt := existing_dt_of existing in
      skip <- not_newer existing_dt pub_dt ;;
      if skip then Ok all_items else Ok (dict_set link item all_items)
  | None => Ok (dict_set link item all_items)
  end.

(** One iteration of [for entry in parsed.entries]. *)
Definition process_entry (cutoff : datetime) (feed_title category : string)
           (all_items : dict) (entry : RawEntry) : result dict :=
  parsed <- parse_entry entry feed_title category ;;
  match parsed with
  | None => Ok all_items
  | Some item =>
      let pub_dt := pub_dt_of item in
      old <- before_cutoff pub_dt cutoff ;;
      if old then Ok all_items else merge_item all_items item pub_dt
  end.

Fixpoint process_entries (cutoff : datetime) (feed_title category : string)
         (entries : list RawEntry) (all_items : dict) : result dict :=
  match entries with
  | [] => Ok all_items
  | entry :: rest =>
      all_items' <- process_entry cutoff feed_title category all_items entry ;;
      process_entries cutoff feed_title category rest all_items'
  end.

(** [for (feed_title, xml_url, category) in feeds]; [fetch xml_url] is
    [feedparser.parse(xml_url).entries]. *)
Fixpoint process_feeds (cutoff : datetime) (fetch : string -> list RawEntry)
         (feeds : list Feed) (all_items : dict) : result dict :=
  match feeds with
  | [] => Ok all_items
  | (feed_title, xml_url, category) :: rest =>
      all_items' <-
        process_entries cutoff feed_title category (fetch xml_url) all_items ;;
      process_feeds cutoff fetch rest all_items'
  end.

(** The mapping [main] holds after its loop, from an empty [all_items]. *)
Definition aggregate (now : Z) (fetch : string -> list RawEntry)
           (feeds : list Feed) : result dict :=
  process_feeds (cutoff_of now) fetch feeds [].

(** *** Writer *)

(** [d.timestamp()]: for an aware value the float of the seconds from
    the epoch to its instant, [(d - epoch).total_seconds()]; [None] when
    it raises. *)
Definition timestamp (d : datetime) : option Z :=
  match tzinfo d with
  | Some off => Some (total_seconds (wall d - off))
  | None => naive_timestamp (wall d)
  end.

(** [sort_key], a float. *)
Definition sort_key (x : NewsItem) : Z :=
  match item_published x with
  | Some p =>
      if PyStr.nonempty p then
        match fromisoformat p with
        | Some d =>
            match timestamp d with
            | Some t => t
            | None => 0%Z
            end
        | None => 0%Z
        end
      else 0%Z
  | None => 0%Z
  end.

(** [items_list] after [items_list.sort(key=sort_key, reverse=True)]. *)
Definition items_list (all_items : dict) : list NewsItem :=
  sort_desc sort_key (dict_values all_items).

(** *** Predicates used to state the properties *)

(** The stored [published] string does not read back as a naive value. *)
Definition reads_back_aware (item : NewsItem) : bool :=
  match existing_dt_of item with
  | Some d => match tzinfo d with Some _ => true | None => false end
  | None => true
  end.

(** The items a list of entries of one feed normalizes to. *)
Definition produced_items (feed_title category : string)
           (entries : list RawEntry) : list NewsItem :=
  flat_map (fun e => match parse_entry e feed_title category with
                     | Ok (Some it) => [it]
                     | _ => []
                     end) entries.

(** No entry of the list makes [parse_entry] raise. *)
Definition entries_convert (feed_title category : string)
           (entries : list RawEntry) : bool :=
  forallb (fun e => match parse_entry e feed_title category with
                    | Ok _ => true
                    | Raise _ => false
                    end) entries.

End Pipeline.

(** ** Definitions that follow the specification's wording *)

(** "trim exactly one trailing path separator if present" *)
Fixpoint trim_one_slash (s : string) : string :=
  match s with
  | EmptyString => EmptyString
  | String c EmptyString => if Ascii.eqb c "/" then EmptyString else s
  | String c r => String c (trim_one_slash r)
  end.

(** The Subscription Loader as the specification describes it: of the
    outline nodes that have a feed URL, the first of each URL, each turned
    into a triple. *)
Definition feed_url_of (o : Outline) : string :=
  PyStr.str_or_empty (attrib_xmlUrl o).

Definition has_feed_url (o : Outline) : bool :=
  PyStr.nonempty (feed_url_of o).

(** "first occurrence kept, later duplicates dropped" *)
Fixpoint keep_first_by_url (nodes : list Outline) : list Outline :=
  match nodes with
  | [] => []
  | o :: rest =>
      o :: filter (fun o' => negb (String.eqb (feed_url_of o') (feed_url_of o)))
                  (keep_first_by_url rest)
  end.

(** "the title attribute, falling back to a text attribute" *)
Definition title_or_text (o : Outline) : option string :=
  match attrib_title o with
  | Some (String c r) => Some (String c r)
  | _ =>
      match attrib_text o with
      | Some (String c r) => Some (String c r)
      | _ => None
      end
  end.

(** "... falling back to the URL itself" *)
Definition display_title (o : Outline) : string :=
  match title_or_text o with
  | Some t => t
  | None => feed_url_of o
  end.

Section LoaderSpec.
Context {text : PyStr.Lower}.

(** "classify it using only the title/text string, and emit the triple" *)
Definition subscription_of (o : Outline) : Feed :=
  (display_title o, feed_url_of o,
   guess_category_from_title (PyStr.str_or_empty (title_or_text o))).

Definition load (nodes : list Outline) : list Feed :=
  map subscription_of (keep_first_by_url (filter has_feed_url nodes)).

End LoaderSpec.

Definition feed_url (f : Feed) : string := snd (fst f).

(** The node's URL is not among those already emitted. *)
Definition unseen (seen : list string) (o : Outline) : bool :=
  negb (in_seen (feed_url_of o) seen).

(** ** Predicates used to state the properties *)

(** Some keyword of the table row occurs in [t]. *)
Definition row_matches (t : string) (row : string * list string) : Prop :=
  exists k, In k (snd row) /\ PyStr.substring_of k t.

(** The entry has a title (a link): one of the two ways of reading the
    field gives a non-empty string. *)
Definition has_title (entry : RawEntry) : bool :=
  orb (PyStr.truthy (attr_title entry)) (PyStr.truthy (get_title entry)).

Definition has_link (entry : RawEntry) : bool :=
  orb (PyStr.truthy (attr_link entry)) (PyStr.truthy (get_link entry)).


(** The instant of the cutoff. *)
Definition cutoff_instant (now : Z) : Z := (now - DAYS_BACK * 86400000000)%Z.

Section Statements.
Context {lib : TimeLib}.


(** The instant the stored (the incoming) item's [published] parses to. *)
Definition existing_instant (existing : NewsItem) : option Z :=
  match existing_dt_of existing with
  | Some d => instant d
  | None => None
  end.

Definition incoming_instant (item : NewsItem) : option Z :=
  match pub_dt_of item with
  | Some d => instant d
  | None => None
  end.

(** Both timestamps are known and the stored one is not older. *)
Definition known_ge (existing item : NewsItem) : bool :=
  match existing_instant existing, incoming_instant item with
  | Some e, Some p => (p <=? e)%Z
  | _, _ => false
  end.

(** Every entry the feeds return normalizes to an item whose [published]
    reads back as an aware value. *)
Definition feeds_read_back_aware (fetch : string -> list RawEntry)
           (feeds : list Feed) : bool :=
  forallb (fun f : Feed =>
             let '(feed_title, xml_url, category) := f in
             forallb reads_back_aware
                     (produced_items feed_title category (fetch xml_url)))
          feeds.

(** No entry the feeds return makes [parse_entry] raise. *)
Definition feeds_convert (fetch : string -> list RawEntry)
           (feeds : list Feed) : bool :=
  forallb (fun f : Feed =>
             let '(feed_title, xml_url, category) := f in
             entries_convert feed_title category (fetch xml_url))
          feeds.

(** The structured time [parse_entry] converts, when the entry has one:
    [published_parsed], else [updated_parsed]. *)
Definition structured_time (entry : RawEntry) : option struct_time :=
  match attr_published_parsed entry with
  | Some st => Some st
  | None => attr_updated_parsed entry
  end.

(** That time, if any, converts without an exception. *)
Definition time_converts (entry : RawEntry) : bool :=
  match structured_time entry with
  | Some st =>
      match from_struct_time st with
      | Ok _ => true
      | Raise _ => false
      end
  | None => true
  end.

(** The float of every positive instant stored in the mapping is
    positive, as the nearest double of a positive number of microseconds
    is. *)
Definition positive_floats (all_items : dict) : bool :=
  forallb (fun it => match existing_instant it with
                     | Some i => implb (0 <? i)%Z (0 <? total_seconds i)%Z
                     | None => true
                     end)
          (dict_values all_items).

(** On the instants stored in the mapping the float does not decrease
    when the instant grows, as rounding to the nearest double does not. *)
Definition ordered_floats (all_items : dict) : bool :=
  forallb (fun x =>
             forallb (fun y =>
                        match existing_instant x, existing_instant y with
                        | Some a, Some b =>
                            implb (a <=? b)%Z
                                  (total_seconds a <=? total_seconds b)%Z
                        | _, _ => true
                        end)
                     (dict_values all_items))
          (dict_values all_items).

(** The key an item is stored under. *)
Definition key_of (it : NewsItem) : string := canonical_link (item_link it).

(** The merge of a run that does not raise, as a function on mappings
    ([pmerge]) and on the value under one key ([trans]). *)
Definition pmerge (m : dict) (it : NewsItem) : dict :=
  match dict_get (key_of it) m with
  | Some existing =>
      if known_ge existing it then m else dict_set (key_of it) it m
  | None => dict_set (key_of it) it m
  end.

Definition trans (s : option NewsItem) (it : NewsItem) : option NewsItem :=
  match s with
  | Some existing => if known_ge existing it then s else Some it
  | None => Some it
  end.

(** The item passes the recency filter. *)
Definition admitted (now : Z) (it : NewsItem) : bool :=
  match incoming_instant it with
  | Some p => negb (p <? cutoff_instant now)%Z
  | None => true
  end.

(** The items that reach the merge, in the order they reach it. *)
Definition offers (now : Z) (feed_title category : string)
           (entries : list RawEntry) : list NewsItem :=
  filter (admitted now) (produced_items feed_title category entries).

Definition all_offers (now : Z) (fetch : string -> list RawEntry)
           (feeds : list Feed) : list NewsItem :=
  flat_map (fun f : Feed =>
              let '(feed_title, xml_url, category) := f in
              offers now feed_title category (fetch xml_url)) feeds.

Definition all_aware (m : dict) : Prop :=
  forall k it, In (k, it) m -> reads_back_aware it = true.

(** No item of [ys] is known to be newer than the instant [e]. *)
Definition bounded (e : Z) (ys : list NewsItem) : Prop :=
  forall y, In y ys -> exists p, incoming_instant y = Some p /\ (p <= e)%Z.

End Statements.

(** ** The snapshot [main] writes *)

(** [out_data], before [json.dumps]. *)
Record Snapshot := mk_snapshot {
  generated_at : string;
  days_back : Z;
  total_items : nat;
  items : list NewsItem
}.

Section Output.
Context {lib : TimeLib} {text : PyStr.Lower}.

(** From [items_list = list(all_items.values())] to [out_data]; [written]
    is the reading of the second [datetime.now(timezone.utc)]. *)
Definition out_data (written : Z) (all_items : dict) : Snapshot :=
  let items_list := sort_desc sort_key (dict_values all_items) in
  {| generated_at := isoformat (mk_datetime written (Some 0%Z));
     days_back := DAYS_BACK;
     total_items := List.length items_list;
     items := items_list |}.

(** [main] from [parse_opml] to [out_data], for an OPML file that exists. *)
Definition build (now written : Z) (body : option (list Outline))
           (fetch : string -> list RawEntry) : result Snapshot :=
  let feeds := parse_opml body in
  all_items <- aggregate now fetch feeds ;;
  Ok (out_data written all_items).

(** Some subscribed feed returns an entry that normalizes to [it]. *)
Definition delivers (fetch : string -> list RawEntry) (feeds : list Feed)
           (it : NewsItem) : Prop :=
  exists feed_title xml_url category entry,
    In (feed_title, xml_url, category) feeds /\
    In entry (fetch xml_url) /\
    parse_entry entry feed_title category = Ok (Some it).

End Output.

(** ** A library instance to run the pipeline on

    A machine whose local zone is UTC.  [fromisoformat] reads
    [YYYY-MM-DDTHH:MM:SS], an optional [.ffffff] and an optional
    [+HH:MM] or [-HH:MM]; [isoformat] prints that form. *)
Module Fixture.
Open Scope Z_scope.

(** Days between 1970-01-01 and the given date of the proleptic
    Gregorian calendar. *)
Definition days_from_civil (y m d : Z) : Z :=
  let y' := if m <=? 2 then y - 1 else y in
  let era := y' / 400 in
  let yoe := y' - era * 400 in
  let mp := if m >? 2 then m - 3 else m + 9 in
  let doy := (153 * mp + 2) / 5 + d - 1 in
  let doe := yoe * 365 + yoe / 4 - yoe / 100 + doy in
  era * 146097 + doe - 719468.

Definition civil_from_days (z : Z) : Z * Z * Z :=
  let z' := z + 719468 in
  let era := z' / 146097 in
  let doe := z' - era * 146097 in
  let yoe := (doe - doe / 1460 + doe / 36524 - doe / 146096) / 365 in
  let doy := doe - (365 * yoe + yoe / 4 - yoe / 100) in
  let mp := (5 * doy + 2) / 153 in
  let d := doy - (153 * mp + 2) / 5 + 1 in
  let m := if mp <? 10 then mp + 3 else mp - 9 in
  (yoe + era * 400 + (if m <=? 2 then 1 else 0), m, d).

Definition digit (n : Z) : ascii := ascii_of_nat (48 + Z.to_nat (n mod 10)).

Definition pad2 (n : Z) : string :=
  String (digit (n / 10)) (String (digit n) EmptyString).

Definition pad4 (n : Z) : string := (pad2 (n / 100) ++ pad2 (n mod 100))%string.

Definition pad6 (n : Z) : string := (pad2 (n / 10000) ++ pad4 (n mod 10000))%string.

Definition us_per_day : Z := 86400000000.

Definition print_offset (off : Z) : string :=
  let minutes := Z.abs off / 60000000 in
  ((if (off <? 0)%Z then "-" else "+") ++ pad2 (minutes / 60) ++ ":"
     ++ pad2 (minutes mod 60))%string.

Definition fx_isoformat (d : datetime) : string :=
  let '(y, m, dd) := civil_from_days (wall d / us_per_day) in
  let rest := wall d mod us_per_day in
  let secs := rest / 1000000 in
  let us := rest mod 1000000 in
  (pad4 y ++ "-" ++ pad2 m ++ "-" ++ pad2 dd ++ "T"
     ++ pad2 (secs / 3600) ++ ":" ++ pad2 (secs / 60 mod 60) ++ ":"
     ++ pad2 (secs mod 60)
     ++ (if (us =? 0)%Z then "" else "." ++ pad6 us)
     ++ match tzinfo d with
        | Some off => print_offset off
        | None => ""
        end)%string.

Definition bindo {A B : Type} (m : option A) (f : A -> option B) : option B :=
  match m with
  | Some a => f a
  | None => None
  end.

Fixpoint read_digits (s : string) (acc : Z) : option Z :=
  match s with
  | EmptyString => Some acc
  | String c r =>
      let n := Z.of_nat (nat_of_ascii c) in
      if andb (48 <=? n) (n <=? 57) then read_digits r (acc * 10 + (n - 48))
      else None
  end.

(** The number written in the [len] characters of [s] from [start]. *)
Definition num (s : string) (start len : nat) : option Z :=
  let part := substring start len s in
  if Nat.eqb (String.length part) len then read_digits part 0 else None.

Definition char_is (s : string) (i : nat) (c : ascii) : bool :=
  match String.get i s with
  | Some c' => Ascii.eqb c c'
  | None => false
  end.

Definition read_offset (s : string) : option (option Z) :=
  match s with
  | EmptyString => Some None
  | String sign r =>
      if andb (Nat.eqb (String.length r) 5) (char_is r 2 ":") then
        bindo (num r 0 2) (fun hh =>
        bindo (num r 3 2) (fun mm =>
          let off := (hh * 60 + mm) * 60000000 in
          if Ascii.eqb sign "+" then Some (Some off)
          else if Ascii.eqb sign "-" then Some (Some (- off))
          else None))
      else None
  end.

Definition fx_fromisoformat (s : string) : option datetime :=
  if andb (andb (char_is s 4 "-") (char_is s 7 "-"))
          (andb (char_is s 10 "T") (andb (char_is s 13 ":") (char_is s 16 ":")))
  then
    bindo (num s 0 4) (fun y =>
    bindo (num s 5 2) (fun m =>
    bindo (num s 8 2) (fun d =>
    bindo (num s 11 2) (fun hh =>
    bindo (num s 14 2) (fun mi =>
    bindo (num s 17 2) (fun ss =>
      if andb (andb (andb (1 <=? m) (m <=? 12)) (andb (1 <=? d) (d <=? 31)))
              (andb (hh <=? 23) (andb (mi <=? 59) (ss <=? 59)))
      then
        let base :=
          (days_from_civil y m d * 86400 + hh * 3600 + mi * 60 + ss) * 1000000 in
        let tail := substring 19 (String.length s - 19) s in
        if char_is tail 0 "." then
          bindo (num tail 1 6) (fun us =>
          bindo (read_offset (substring 7 (String.length tail - 7) tail))
                (fun tz => Some (mk_datetime (base + us) tz)))
        else
          bindo (read_offset tail) (fun tz => Some (mk_datetime base tz))
      else None))))))
  else None.

(** [time.mktime] where [time_t] has 64 bits: it returns. *)
Definition fx_mktime (st : struct_time) : option Z :=
  Some (days_from_civil (tm_year st) (tm_mon st) (tm_mday st) * 86400
        + tm_hour st * 3600 + tm_min st * 60 + tm_sec st).

(** [datetime] holds the years 1 to 9999. *)
Definition fx_fromtimestamp_returns (t : Z) : bool :=
  andb (-62135596800 <=? t) (t <=? 253402300799).

(** [N / D] rounded to the nearest integer, to the even one on a tie. *)
Definition round_half_even (N D : Z) : Z :=
  let q := N / D in
  let r := N mod D in
  if 2 * r <? D then q
  else if D <? 2 * r then q + 1
  else if Z.even q then q else q + 1.

(** [n / (d * 2^e)] as a fraction of integers. *)
Definition scaled (n d e : Z) : Z * Z :=
  if 0 <=? e then (n, d * 2 ^ e) else (n * 2 ^ (- e), d).

(** The double nearest to [n / d] for positive [n] and [d], in units of
    [2^-1074]: a 53-bit significand times a power of two. *)
Definition nearest_double (n d : Z) : Z :=
  let e1 := Z.log2 n - Z.log2 d - 52 in
  let '(N1, D1) := scaled n d e1 in
  let e := if N1 <? 2 ^ 52 * D1 then e1 - 1 else e1 in
  let '(N, D) := scaled n d e in
  round_half_even N D * 2 ^ (e + 1074).

Definition fx_total_seconds (us : Z) : Z :=
  if us =? 0 then 0
  else if 0 <? us then nearest_double us 1000000
  else - nearest_double (- us) 1000000.

Definition lib : TimeLib :=
  {| fromisoformat := fx_fromisoformat;
     isoformat := fx_isoformat;
     mktime := fx_mktime;
     fromtimestamp_returns := fx_fromtimestamp_returns;
     total_seconds := fx_total_seconds;
     naive_timestamp := fun w => Some (fx_total_seconds w) |}.

(** 2024-03-01 12:00:00 UTC, the time of the run. *)
Definition now : Z := 1709294400000000.

Definition entry (title link : string) (published : option string) : RawEntry :=
  {| attr_title := Some title; get_title := Some title;
     attr_link := Some link; get_link := Some link;
     attr_summary := None; get_summary := None; get_description := None;
     attr_published_parsed := None; attr_updated_parsed := None;
     get_published := published; get_updated := None |}.

(** Two feeds that carry the same article under two links that differ by
    a trailing slash. *)
Definition two_link_fetch (xml_url : string) : list RawEntry :=
  if String.eqb xml_url "http://a.example/feed" then
    [entry "T" "http://e.com/p" (Some "2024-02-10T00:00:00+00:00")]
  else if String.eqb xml_url "http://b.example/feed" then
    [entry "T" "http://e.com/p/" (Some "2024-02-20T00:00:00+00:00")]
  else [].

Definition two_link_feeds : list Feed :=
  [("A", "http://a.example/feed", "general");
   ("B", "http://b.example/feed", "general")].

(** Two feeds with an old entry, entries without a usable date, an entry
    without a title, and links that differ by trailing slashes. *)
Definition sample_fetch (xml_url : string) : list RawEntry :=
  if String.eqb xml_url "http://a.example/feed" then
    [entry "P" "http://e.com/p" (Some "2024-02-10T00:00:00+00:00");
     entry "Q" "http://e.com/q" (Some "2024-01-01T00:00:00+00:00");
     entry "R" "http://e.com/r" None]
  else if String.eqb xml_url "http://b.example/feed" then
    [entry "P2" "http://e.com/p/" (Some "2024-02-20T00:00:00");
     entry "R2" "http://e.com/r//" (Some "last tuesday");
     entry "" "http://e.com/s" (Some "2024-02-21T00:00:00+00:00");
     entry "U" "http://e.com/u" (Some "2024-02-25T06:00:00+02:00")]
  else [].

Definition sample_feeds : list Feed :=
  [("A", "http://a.example/feed", "general");
   ("B", "http://b.example/feed", "malware")].

Definition item (title link source category : string) (published : option string)
  : NewsItem :=
  {| item_title := title; item_link := link; item_summary := EmptyString;
     item_source := source; item_category := category;
     item_published := published |}.

(** The mapping after the run over [sample_feeds]. *)
Definition sample_items : dict :=
  [("http://e.com/p",
    item "P2" "http://e.com/p/" "B" "malware" (Some "2024-02-20T00:00:00+00:00"));
   ("http://e.com/r", item "R2" "http://e.com/r//" "B" "malware" None);
   ("http://e.com/u",
    item "U" "http://e.com/u" "B" "malware" (Some "2024-02-25T06:00:00+02:00"))].

Close Scope Z_scope.
End Fixture.

(** ** Further inputs to run the pipeline on *)
Module Cases.
Import Fixture.

(** A mapping whose stored [published] has no zone: no item of
    [parse_entry] looks like this, [main] only meets it if the mapping is
    filled some other way. *)
Definition naive_items : dict :=
  [("http://e.com/p",
    item "P" "http://e.com/p" "A" "general" (Some "2024-02-10T00:00:00"))].

(** An entry whose [published_parsed] is in the year 0. *)
Definition year_zero : RawEntry :=
  {| attr_title := Some "Z"; get_title := Some "Z";
     attr_link := Some "http://e.com/z"; get_link := Some "http://e.com/z";
     attr_summary := None; get_summary := None; get_description := None;
     attr_published_parsed := Some (mk_struct_time 0 1 1 0 0 0 0 1 0);
     attr_updated_parsed := None;
     get_published := None; get_updated := None |}.

(** Two items one microsecond apart in the year 2300, the older first. *)
Definition year_2300_items : dict :=
  [("http://e.com/x",
    item "X" "http://e.com/x" "A" "general"
         (Some "2300-01-01T00:00:00.000001+00:00"));
   ("http://e.com/y",
    item "Y" "http://e.com/y" "A" "general"
         (Some "2300-01-01T00:00:00.000002+00:00"))].

(** An item dated one second before the epoch, then one without a date. *)
Definition pre_epoch_items : dict :=
  [("http://e.com/o",
    item "O" "http://e.com/o" "A" "general" (Some "1969-12-31T23:59:59+00:00"));
   ("http://e.com/n", item "N" "http://e.com/n" "A" "general" None)].

(** An entry dated exactly at the cutoff of a run at [now]. *)
Definition at_cutoff : RawEntry :=
  entry "C" "http://e.com/c/" (Some "2024-01-31T12:00:00+00:00").

Definition dated : NewsItem :=
  item "P" "http://e.com/p" "A" "general" (Some "2024-02-10T00:00:00+00:00").

Definition undated : NewsItem :=
  item "P" "http://e.com/p/" "B" "malware" None.

(** Items with equal keys of the sort, in mapping order. *)
Definition tied_items : dict :=
  [("http://e.com/r", item "R" "http://e.com/r" "A" "general" None);
   ("http://e.com/u",
    item "U" "http://e.com/u" "B" "malware" (Some "2024-02-25T06:00:00+02:00"));
   ("http://e.com/s", item "S" "http://e.com/s" "A" "general" (Some "soon"));
   ("http://e.com/v",
    item "V" "http://e.com/v" "A" "general" (Some "2024-02-25T04:00:00+00:00"))].

(** The subscription file of the feeds [sample_fetch] knows. *)
Definition sample_body : option (list Outline) :=
  Some [mk_outline (Some "http://a.example/feed") (Some "A") None;
        mk_outline (Some "http://b.example/feed") None (Some "Malware Blog");
        mk_outline (Some "http://a.example/feed") (Some "A again") None].

(** What [main] writes for [sample_body], run and written at [now]. *)
Definition sample_snapshot : Snapshot :=
  {| generated_at := "2024-03-01T12:00:00+00:00";
     days_back := 30;
     total_items := 3;
     items :=
       [item "U" "http://e.com/u" "Malware Blog" "malware"
             (Some "2024-02-25T06:00:00+02:00");
        item "P2" "http://e.com/p/" "Malware Blog" "malware"
             (Some "2024-02-20T00:00:00+00:00");
        item "R2" "http://e.com/r//" "Malware Blog" "malware" None] |}.

Definition sample_outline : list Outline :=
  [mk_outline (Some "http://a/feed") (Some "Malware Analysis Blog") None;
   mk_outline None (Some "Folder") (Some "Folder");
   mk_outline (Some "http://a/feed") (Some "Duplicate") None;
   mk_outline (Some "http://b/feed") None (Some "CERT-EU");
   mk_outline (Some "http://c/feed") (Some "") None].

End Cases.

(** * Properties *)

(** ** Strings *)

Module PyStrFacts.
Import PyStr.

Lemma startswith_spec (k t : string) :
  startswith k t = true <-> exists post, t = (k ++ post)%string.
Proof.
  revert t; induction k as [|a k IH]; intros t; simpl.
  - split; [intros _; now exists t | reflexivity].
  - destruct t as [|b t].
    + split; [discriminate | intros [post H]; discriminate H].
    + rewrite andb_true_iff, Ascii.eqb_eq, IH. split.
      * intros [-> [post ->]]. now exists post.
      * intros [post H]. injection H as -> ->. split; [reflexivity | now exists post].
Qed.

Lemma contains_spec (k t : string) :
  contains k t = true <-> substring_of k t.
Proof.
  unfold substring_of. induction t as [|b t IH].
  - simpl. rewrite orb_false_r, startswith_spec. split.
    + intros [post H]. now exists EmptyString, post.
    + intros [pre [post H]]. destruct pre; [now exists post | discriminate H].
  - cbn [contains]. rewrite orb_true_iff, startswith_spec, IH. split.
    + intros [[post H] | [pre [post H]]].
      * now exists EmptyString, post.
      * exists (String b pre), post. simpl. now rewrite H.
    + intros [pre [post H]]. destruct pre as [|c pre].
      * left. now exists post.
      * right. simpl in H. injection H as _ H. now exists pre, post.
Qed.

Lemma append_empty_r (s : string) : (s ++ "")%string = s.
Proof.
  induction s as [|c s IH]; simpl; [reflexivity | now rewrite IH].
Qed.

Lemma rstrip_slashes (n : nat) : rstrip_slash (slashes n) = EmptyString.
Proof.
  induction n as [|n IH]; simpl; [reflexivity | now rewrite IH].
Qed.

Lemma rstrip_decompose (s : string) :
  exists n, s = (rstrip_slash s ++ slashes n)%string.
Proof.
  induction s as [|c s [n IH]]; simpl.
  - now exists 0.
  - destruct (nonempty (rstrip_slash s)) eqn:E; simpl.
    + exists n. simpl. now rewrite <- IH.
    + destruct (rstrip_slash s) eqn:R; [|discriminate E].
      simpl in IH. destruct (Ascii.eqb c "/") eqn:C.
      * apply Ascii.eqb_eq in C. subst c. exists (S n). simpl. now rewrite <- IH.
      * exists n. simpl. now rewrite <- IH.
Qed.

Lemma rstrip_no_trailing_slash (s : string) :
  endswith_slash (rstrip_slash s) = false.
Proof.
  induction s as [|c s IH]; simpl; [reflexivity|].
  destruct (rstrip_slash s) eqn:R; simpl.
  - destruct (Ascii.eqb c "/") eqn:C; simpl; [reflexivity | exact C].
  - exact IH.
Qed.

Lemma rstrip_fixed (s : string) :
  endswith_slash s = false -> rstrip_slash s = s.
Proof.
  induction s as [|c s IH]; simpl; [reflexivity|].
  destruct s as [|d s].
  - simpl. intros ->. reflexivity.
  - intros H. rewrite (IH H). reflexivity.
Qed.

Lemma rstrip_append_slashes (s : string) (n : nat) :
  endswith_slash s = false -> rstrip_slash (s ++ slashes n) = s.
Proof.
  induction s as [|c s IH]; simpl.
  - intros _. apply rstrip_slashes.
  - destruct s as [|d s].
    + intros C. simpl. rewrite rstrip_slashes. simpl. now rewrite C.
    + intros H. specialize (IH H). rewrite IH. reflexivity.
Qed.

Lemma truthy_por (x y : option string) :
  truthy (por x y) = orb (truthy x) (truthy y).
Proof.
  unfold por. destruct (truthy x) eqn:E; simpl; [exact E | reflexivity].
Qed.


End PyStrFacts.

(** ** Category classifier *)

Lemma any_keyword_spec (cat : string) (keywords : list string) (t : string) :
  any_keyword keywords t = true <-> row_matches t (cat, keywords).
Proof.
  unfold any_keyword, row_matches. rewrite existsb_exists. simpl.
  split; intros [k [Hin Hk]]; exists k; split; trivial;
    now apply PyStrFacts.contains_spec.
Qed.

Lemma scan_table_first_match (table : list (string * list string)) (t : string) :
  (exists i row,
      nth_error table i = Some row /\ fst row = scan_table table t /\
      row_matches t row /\
      forall j row', j < i -> nth_error table j = Some row' -> ~ row_matches t row')
  \/ (scan_table table t = "general" /\
      forall row, In row table -> ~ row_matches t row).
Proof.
  induction table as [|[cat keywords] rest IH]; simpl.
  - right. split; [reflexivity | intros row []].
  - destruct (any_keyword keywords t) eqn:E.
    + left. exists 0, (cat, keywords). repeat split; trivial.
      * now apply (any_keyword_spec cat).
      * intros j row' Hj. inversion Hj.
    + assert (Hno : ~ row_matches t (cat, keywords)).
      { intros H. apply (any_keyword_spec cat) in H. congruence. }
      destruct IH as [[i [row [Hn [Hc [Hm Hfirst]]]]] | [Hg Hnone]].
      * left. exists (S i), row. repeat split; trivial.
        intros [|j] row' Hj Hnth; simpl in Hnth.
        -- injection Hnth as <-. exact Hno.
        -- apply (Hfirst j); [lia | exact Hnth].
      * right. split; [exact Hg|]. intros row [<- | Hin]; auto.
Qed.

Lemma category_names_distinct : NoDup (map fst CATEGORY_KEYWORDS).
Proof.
  assert (H : nodup string_dec (map fst CATEGORY_KEYWORDS) = map fst CATEGORY_KEYWORDS)
    by (vm_compute; reflexivity).
  rewrite <- H. apply NoDup_nodup.
Qed.

Lemma NoDup_nth_error_neq {A : Type} (l : list A) (i j : nat) (a b : A) :
  NoDup l -> i < j -> nth_error l i = Some a -> nth_error l j = Some b -> a <> b.
Proof.
  intros Hnd Hlt Hi Hj Heq. subst b.
  assert (Hlen : i < List.length l) by (apply nth_error_Some; congruence).
  rewrite NoDup_nth_error in Hnd.
  specialize (Hnd i j Hlen). rewrite Hi, Hj in Hnd. specialize (Hnd eq_refl). lia.
Qed.

Section ClassifierFacts.
Context {text : PyStr.Lower}.

(** C5. [guess_category_from_title] lower-cases the title and scans the
    category table in its declaration order: the result is the category of
    the first row one of whose keywords occurs in the lower-cased title,
    and ["general"] when no row has such a keyword.  The result is always a
    category of the table, it does not depend on the case of the title,
    and of two rows that both match, the later one never names the result. *)
Theorem classify_first_match (title : string) :
  In (guess_category_from_title title) (map fst CATEGORY_KEYWORDS) /\
  guess_category_from_title (PyStr.lower title) = guess_category_from_title title /\
  ((exists i row,
       nth_error CATEGORY_KEYWORDS i = Some row /\
       fst row = guess_category_from_title title /\
       row_matches (PyStr.lower title) row /\
       forall j row', j < i -> nth_error CATEGORY_KEYWORDS j = Some row' ->
                      ~ row_matches (PyStr.lower title) row')
   \/ (guess_category_from_title title = "general" /\
       forall row, In row CATEGORY_KEYWORDS -> ~ row_matches (PyStr.lower title) row)) /\
  (forall i j ri rj,
      i < j ->
      nth_error CATEGORY_KEYWORDS i = Some ri ->
      nth_error CATEGORY_KEYWORDS j = Some rj ->
      row_matches (PyStr.lower title) ri ->
      row_matches (PyStr.lower title) rj ->
      guess_category_from_title title <> fst rj).
Proof.
  unfold guess_category_from_title.
  pose proof (scan_table_first_match CATEGORY_KEYWORDS (PyStr.lower title)) as Hscan.
  split; [|split; [|split]].
  - destruct Hscan as [[i [row [Hn [Hc _]]]] | [Hg _]].
    + rewrite <- Hc. apply in_map. eapply nth_error_In; eauto.
    + rewrite Hg. vm_compute. tauto.
  - now rewrite PyStr.lower_again.
  - exact Hscan.
  - intros i j ri rj Hlt Hi Hj Hmi Hmj.
    destruct Hscan as [[i0 [row [Hn [Hc [Hm Hfirst]]]]] | [_ Hnone]].
    + rewrite <- Hc.
      assert (Hle : i0 <= i).
      { destruct (Nat.le_gt_cases i0 i) as [|Hgt]; trivial.
        exfalso. exact (Hfirst i ri Hgt Hi Hmi). }
      apply (NoDup_nth_error_neq (map fst CATEGORY_KEYWORDS) i0 j).
      * apply category_names_distinct.
      * lia.
      * rewrite nth_error_map, Hn. reflexivity.
      * rewrite nth_error_map, Hj. reflexivity.
    + exfalso. apply (Hnone ri); [eapply nth_error_In; eauto | exact Hmi].
Qed.

(** The feed title of the specification's first scenario: ["malware"] is
    declared before ["malware_analysis"] and one of its keywords occurs. *)
Example classify_malware_analysis_blog :
  guess_category_from_title (text := PyStr.ascii_text) "Malware Analysis Blog"
  = "malware".
Proof. reflexivity. Qed.

End ClassifierFacts.

(** ** Canonical link *)

(** C2, as the specification words it, fails: of two trailing slashes the
    key loses both. *)
Lemma canonical_link_not_trim_one :
  canonical_link "http://e.com/p//" <> trim_one_slash "http://e.com/p//".
Proof. vm_compute. discriminate. Qed.

(** C2, amended. The key under which an item is stored is its link with
    every trailing ['/'] removed: the link is the key followed by slashes
    only, the key does not end in ['/'], and a link that does not end in
    ['/'] is its own key. *)
Theorem canonical_link_strips_all_slashes (l : string) :
  (exists n, l = (canonical_link l ++ PyStr.slashes n)%string) /\
  PyStr.endswith_slash (canonical_link l) = false /\
  (forall s n, PyStr.endswith_slash s = false ->
               canonical_link (s ++ PyStr.slashes n) = s) /\
  (PyStr.endswith_slash l = false -> canonical_link l = l).
Proof.
  unfold canonical_link. repeat split.
  - apply PyStrFacts.rstrip_decompose.
  - apply PyStrFacts.rstrip_no_trailing_slash.
  - intros s n. apply PyStrFacts.rstrip_append_slashes.
  - apply PyStrFacts.rstrip_fixed.
Qed.

(** ** Subscription loader *)

Lemma in_seen_spec (x : string) (seen : list string) :
  in_seen x seen = true <-> In x seen.
Proof.
  unfold in_seen. rewrite existsb_exists. split.
  - intros [y [Hin Heq]]. apply String.eqb_eq in Heq. now subst.
  - intros Hin. exists x. split; [exact Hin | apply String.eqb_refl].
Qed.

Lemma title_or_text_por (o : Outline) (last : option string) :
  PyStr.por (PyStr.por (attrib_title o) (attrib_text o)) last =
  match title_or_text o with
  | Some t => Some t
  | None => last
  end.
Proof.
  unfold title_or_text, PyStr.por.
  destruct (attrib_title o) as [[|c r]|]; simpl;
    destruct (attrib_text o) as [[|c' r']|]; reflexivity.
Qed.

Lemma title_or_text_nonempty (o : Outline) (t : string) :
  title_or_text o = Some t -> PyStr.nonempty t = true.
Proof.
  unfold title_or_text.
  destruct (attrib_title o) as [[|c r]|];
    destruct (attrib_text o) as [[|c' r']|]; intros H; inversion H; reflexivity.
Qed.

Section LoaderFacts.
Context {text : PyStr.Lower}.

(** What one iteration of the loop appends for a node it keeps. *)
Lemma loop_triple (o : Outline) :
  has_feed_url o = true ->
  (PyStr.str_or_empty
     (PyStr.por (PyStr.por (attrib_title o) (attrib_text o)) (attrib_xmlUrl o)),
   PyStr.str_or_empty (attrib_xmlUrl o),
   guess_category_from_title
     (join " / "
        (filter PyStr.nonempty
           [PyStr.str_or_empty
              (PyStr.por (PyStr.por (attrib_title o) (attrib_text o))
                         (Some EmptyString))])))
  = subscription_of o.
Proof.
  intros Hurl. unfold subscription_of, display_title.
  rewrite !title_or_text_por.
  destruct (title_or_text o) as [t|] eqn:E; simpl.
  - rewrite (title_or_text_nonempty o t E). reflexivity.
  - reflexivity.
Qed.

Lemma filter_unseen_cons (u : string) (seen : list string) (l : list Outline) :
  filter (unseen (u :: seen)) l =
  filter (unseen seen)
         (filter (fun o' => negb (String.eqb (feed_url_of o') u)) l).
Proof.
  induction l as [|o l IH]; simpl; [reflexivity|].
  unfold unseen at 1. simpl.
  destruct (String.eqb (feed_url_of o) u) eqn:E; simpl.
  - exact IH.
  - fold (unseen seen o). destruct (unseen seen o); simpl; now rewrite IH.
Qed.

Lemma filter_unseen_same_url (u : string) (seen : list string) (l : list Outline) :
  In u seen ->
  filter (unseen seen)
         (filter (fun o' => negb (String.eqb (feed_url_of o') u)) l)
  = filter (unseen seen) l.
Proof.
  intros Hin. induction l as [|o l IH]; simpl; [reflexivity|].
  destruct (String.eqb (feed_url_of o) u) eqn:E; simpl.
  - apply String.eqb_eq in E. unfold unseen at 2.
    replace (in_seen (feed_url_of o) seen) with true; simpl; [exact IH|].
    symmetry. apply in_seen_spec. now rewrite E.
  - now rewrite IH.
Qed.

Lemma opml_loop_spec (elems : list Outline) (feeds : list Feed) (seen : list string) :
  opml_loop elems feeds seen =
  feeds ++ map subscription_of
               (filter (unseen seen) (keep_first_by_url (filter has_feed_url elems))).
Proof.
  revert feeds seen. induction elems as [|o elems IH]; intros feeds seen.
  - simpl. now rewrite app_nil_r.
  - cbn [opml_loop filter].
    assert (Htruthy : PyStr.truthy (attrib_xmlUrl o) = has_feed_url o).
    { unfold has_feed_url, feed_url_of. now destruct (attrib_xmlUrl o). }
    rewrite Htruthy. destruct (has_feed_url o) eqn:Hurl; cbn [negb orb].
    + change (PyStr.str_or_empty (attrib_xmlUrl o)) with (feed_url_of o).
      destruct (in_seen (feed_url_of o) seen) eqn:Hseen.
      * rewrite IH. cbn [keep_first_by_url filter].
        unfold unseen at 2. rewrite Hseen. cbn [negb].
        rewrite filter_unseen_same_url; [reflexivity | now apply in_seen_spec].
      * rewrite IH. cbn [keep_first_by_url filter].
        unfold unseen at 2. rewrite Hseen. cbn [negb map].
        rewrite filter_unseen_cons, <- app_assoc.
        rewrite <- (loop_triple o Hurl). reflexivity.
    + apply IH.
Qed.

Lemma keep_first_NoDup (nodes : list Outline) :
  NoDup (map feed_url_of (keep_first_by_url nodes)).
Proof.
  induction nodes as [|o rest IH]; simpl; constructor.
  - rewrite in_map_iff. intros [o' [Heq Hin]].
    apply filter_In in Hin as [_ Hneq].
    rewrite Heq, String.eqb_refl in Hneq. discriminate.
  - clear -IH. induction (keep_first_by_url rest) as [|x l IHl]; simpl; [constructor|].
    inversion IH as [|? ? Hnotin Hnd]; subst.
    destruct (negb (String.eqb (feed_url_of x) (feed_url_of o))); simpl; auto.
    constructor; auto.
    rewrite in_map_iff. intros [y [Heq Hin]]. apply filter_In in Hin as [Hin _].
    apply Hnotin. rewrite <- Heq. now apply in_map.
Qed.

Lemma keep_first_In (nodes : list Outline) (u : string) :
  In u (map feed_url_of nodes) -> In u (map feed_url_of (keep_first_by_url nodes)).
Proof.
  induction nodes as [|o rest IH]; simpl; [trivial|].
  intros [<- | Hin]; [now left|].
  destruct (String.eqb u (feed_url_of o)) eqn:E.
  - apply String.eqb_eq in E. now left.
  - right. specialize (IH Hin). rewrite in_map_iff in IH |- *.
    destruct IH as [o' [Heq Hin']]. exists o'. split; [exact Heq|].
    apply filter_In. split; [exact Hin'|]. now rewrite Heq, E.
Qed.

(** C9. [parse_opml] returns, in document order, one triple for the first
    outline node of each feed URL and none for a later node with the same
    URL: its result is [load], the loader of the specification.  The title
    of a triple is the node's [title] attribute, else its [text] attribute,
    else the URL; its category is the classifier applied to the [title] or
    [text] string (the empty string when there is neither).  No URL occurs
    twice in the result and every URL of the document occurs in it. *)
Theorem parse_opml_first_occurrences (body : option (list Outline)) :
  parse_opml body = match body with
                    | Some nodes => load nodes
                    | None => []
                    end /\
  NoDup (map feed_url (parse_opml body)) /\
  (forall nodes o, body = Some nodes -> In o nodes -> has_feed_url o = true ->
                   In (feed_url_of o) (map feed_url (parse_opml body))).
Proof.
  assert (Heq : parse_opml body = match body with
                                  | Some nodes => load nodes
                                  | None => []
                                  end).
  { destruct body as [nodes|]; [|reflexivity].
    unfold parse_opml, load. rewrite opml_loop_spec. simpl.
    f_equal. apply forallb_filter_id. apply forallb_forall. reflexivity. }
  assert (Hurls : forall nodes,
             map feed_url (load nodes) =
             map feed_url_of (keep_first_by_url (filter has_feed_url nodes))).
  { intros nodes. unfold load. rewrite map_map. reflexivity. }
  split; [exact Heq|]. rewrite Heq. split.
  - destruct body as [nodes|]; [|constructor].
    rewrite Hurls. apply keep_first_NoDup.
  - intros nodes o -> Hin Hurl. rewrite Hurls. apply keep_first_In.
    apply in_map. apply filter_In. now split.
Qed.

End LoaderFacts.

(** ** Entry normalizer *)

Section Normalizer.
Context {lib : TimeLib}.

Lemma from_struct_time_Ok (st : struct_time) (d : datetime) :
  from_struct_time st = Ok d <->
  exists t, mktime st = Some t /\ fromtimestamp_returns t = true /\
            d = mk_datetime (t * 1000000)%Z (Some 0%Z).
Proof.
  unfold from_struct_time, fromtimestamp_utc.
  destruct (mktime st) as [t|].
  - destruct (fromtimestamp_returns t) eqn:E; split.
    + intros H. injection H as <-. now exists t.
    + intros [t' [Ht [_ ->]]]. now injection Ht as <-.
    + discriminate.
    + intros [t' [Ht [Hr _]]]. injection Ht as <-. congruence.
  - split; [discriminate | intros [t' [Ht _]]; discriminate].
Qed.

Lemma from_struct_time_Raise (st : struct_time) (x : exn) :
  from_struct_time st = Raise x -> x = TimeError.
Proof.
  unfold from_struct_time. destruct (mktime st) as [t|];
    [destruct (fromtimestamp_utc t)|]; intros H; now inversion H.
Qed.

(** [resolve_published] raises exactly when the structured time of the
    entry does not convert. *)
Lemma resolve_published_Raise (entry : RawEntry) (x : exn) :
  resolve_published entry = Raise x <->
  x = TimeError /\ time_converts entry = false.
Proof.
  unfold resolve_published, time_converts, structured_time.
  destruct (attr_published_parsed entry) as [st|];
    [|destruct (attr_updated_parsed entry) as [st|]].
  - destruct (from_struct_time st) as [d|y] eqn:E; simpl.
    + split; [discriminate | intros [_ H]; discriminate].
    + apply from_struct_time_Raise in E. subst y. split.
      * intros H. injection H as <-. now split.
      * now intros [-> _].
  - destruct (from_struct_time st) as [d|y] eqn:E; simpl.
    + split; [discriminate | intros [_ H]; discriminate].
    + apply from_struct_time_Raise in E. subst y. split.
      * intros H. injection H as <-. now split.
      * now intros [-> _].
  - split; [discriminate | intros [_ H]; discriminate].
Qed.


(** What [parse_entry] returns, by cases. *)
Lemma parse_entry_Some (entry : RawEntry) (source_title category : string)
      (item : NewsItem) :
  parse_entry entry source_title category = Ok (Some item) <->
  has_title entry = true /\ has_link entry = true /\
  exists published,
    resolve_published entry = Ok published /\
    item = {| item_title :=
                PyStr.str_or_empty (PyStr.por (attr_title entry) (get_title entry));
              item_link :=
                PyStr.str_or_empty (PyStr.por (attr_link entry) (get_link entry));
              item_summary :=
                PyStr.str_or_empty
                  (PyStr.por
                     (PyStr.por (PyStr.por (attr_summary entry) (get_summary entry))
                                (get_description entry))
                     (Some EmptyString));
              item_source := source_title;
              item_category := category;
              item_published := option_map isoformat published |}.
Proof.
  unfold parse_entry, has_title, has_link. rewrite <- !PyStrFacts.truthy_por.
  destruct (PyStr.truthy (PyStr.por (attr_title entry) (get_title entry)));
    destruct (PyStr.truthy (PyStr.por (attr_link entry) (get_link entry)));
    simpl;
    try (split; [discriminate | intros [H1 [H2 _]]; discriminate]).
  destruct (resolve_published entry) as [published|x]; simpl; split.
  - intros H. injection H as <-. repeat split. now exists published.
  - intros [_ [_ [p [Hp ->]]]]. now injection Hp as <-.
  - discriminate.
  - intros [_ [_ [p [Hp _]]]]. discriminate.
Qed.

Lemma parse_entry_None (entry : RawEntry) (source_title category : string) :
  parse_entry entry source_title category = Ok None <->
  has_title entry = false \/ has_link entry = false.
Proof.
  unfold parse_entry, has_title, has_link. rewrite <- !PyStrFacts.truthy_por.
  destruct (PyStr.truthy (PyStr.por (attr_title entry) (get_title entry)));
    destruct (PyStr.truthy (PyStr.por (attr_link entry) (get_link entry)));
    simpl; try (split; [auto | reflexivity]).
  destruct (resolve_published entry); simpl;
    (split; [discriminate | intros [H | H]; discriminate]).
Qed.

Lemma parse_entry_Raise (entry : RawEntry) (source_title category : string)
      (x : exn) :
  parse_entry entry source_title category = Raise x <->
  x = TimeError /\ has_title entry = true /\ has_link entry = true /\
  time_converts entry = false.
Proof.
  unfold parse_entry, has_title, has_link. rewrite <- !PyStrFacts.truthy_por.
  destruct (PyStr.truthy (PyStr.por (attr_title entry) (get_title entry)));
    destruct (PyStr.truthy (PyStr.por (attr_link entry) (get_link entry)));
    simpl;
    try (split; [discriminate | intros [_ [H1 [H2 _]]]; discriminate]).
  destruct (resolve_published entry) as [published|y] eqn:E; simpl.
  - split; [discriminate|]. intros [-> [_ [_ H]]].
    assert (Hr : resolve_published entry = Raise TimeError)
      by now apply resolve_published_Raise.
    congruence.
  - apply resolve_published_Raise in E as [-> E]. split.
    + intros H. injection H as <-. repeat split. exact E.
    + now intros [-> _].
Qed.








End Normalizer.

(** ** The mapping *)

Lemma dict_get_set_same (k : string) (v : NewsItem) (d : dict) :
  dict_get k (dict_set k v d) = Some v.
Proof.
  induction d as [|[k' v'] d IH]; simpl.
  - now rewrite String.eqb_refl.
  - destruct (String.eqb k k') eqn:E; simpl; rewrite E; [reflexivity | exact IH].
Qed.

Lemma dict_get_set_other (k k' : string) (v : NewsItem) (d : dict) :
  k' <> k -> dict_get k' (dict_set k v d) = dict_get k' d.
Proof.
  intros Hne. induction d as [|[k0 v0] d IH]; simpl.
  - apply String.eqb_neq in Hne. now rewrite Hne.
  - destruct (String.eqb k k0) eqn:E; simpl.
    + apply String.eqb_eq in E. subst k0.
      apply String.eqb_neq in Hne. now rewrite Hne.
    + now rewrite IH.
Qed.

Lemma dict_set_In (k k' : string) (v v' : NewsItem) (d : dict) :
  In (k', v') (dict_set k v d) -> (k', v') = (k, v) \/ In (k', v') d.
Proof.
  induction d as [|[k0 v0] d IH]; simpl.
  - intros [H | []]. left. now symmetry.
  - destruct (String.eqb k k0) eqn:E; simpl.
    + apply String.eqb_eq in E. subst k0.
      intros [H | H]; [left; now symmetry | right; now right].
    + intros [H | H]; [right; now left|].
      destruct (IH H); [now left | right; now right].
Qed.

Lemma dict_get_In (k : string) (v : NewsItem) (d : dict) :
  dict_get k d = Some v -> In (k, v) d.
Proof.
  induction d as [|[k0 v0] d IH]; simpl; [discriminate|].
  destruct (String.eqb k k0) eqn:E.
  - apply String.eqb_eq in E. intros H. injection H as ->. subst. now left.
  - intros H. right. now apply IH.
Qed.

Lemma dict_get_None_keys (k : string) (d : dict) :
  dict_get k d = None <-> ~ In k (dict_keys d).
Proof.
  induction d as [|[k0 v0] d IH]; simpl.
  - tauto.
  - destruct (String.eqb k k0) eqn:E.
    + apply String.eqb_eq in E. subst. split; [discriminate | intros H; exfalso; auto].
    + apply String.eqb_neq in E. rewrite IH. split.
      * intros H [H' | H']; [now subst | auto].
      * intros H H'. apply H. now right.
Qed.

Lemma dict_keys_set (k : string) (v : NewsItem) (d : dict) :
  dict_keys (dict_set k v d) =
  match dict_get k d with
  | Some _ => dict_keys d
  | None => dict_keys d ++ [k]
  end.
Proof.
  induction d as [|[k0 v0] d IH]; simpl; [reflexivity|].
  destruct (String.eqb k k0) eqn:E; simpl; [reflexivity|].
  rewrite IH. now destruct (dict_get k d).
Qed.

Lemma dict_keys_set_NoDup (k : string) (v : NewsItem) (d : dict) :
  NoDup (dict_keys d) -> NoDup (dict_keys (dict_set k v d)).
Proof.
  intros Hnd. rewrite dict_keys_set.
  destruct (dict_get k d) eqn:E; [exact Hnd|].
  apply dict_get_None_keys in E.
  apply NoDup_rev in Hnd. rewrite <- (rev_involutive (dict_keys d ++ [k])).
  apply NoDup_rev. rewrite rev_app_distr. simpl. constructor; trivial.
  now rewrite <- in_rev.
Qed.

(** Two mappings with the same keys in the same order and the same value
    under every key are the same mapping. *)
Lemma dict_ext (d1 d2 : dict) :
  NoDup (dict_keys d1) ->
  dict_keys d1 = dict_keys d2 ->
  (forall k, dict_get k d1 = dict_get k d2) ->
  d1 = d2.
Proof.
  revert d2. induction d1 as [|[k1 v1] d1 IH]; intros [|[k2 v2] d2] Hnd Hk Hg;
    try discriminate Hk; [reflexivity|].
  simpl in Hk. injection Hk as -> Hk. inversion Hnd as [|? ? Hnotin Hnd']; subst.
  pose proof (Hg k2) as Hhead. simpl in Hhead. rewrite String.eqb_refl in Hhead.
  injection Hhead as ->. f_equal. apply IH; trivial.
  intros k. specialize (Hg k). simpl in Hg.
  destruct (String.eqb k k2) eqn:E; [|exact Hg].
  apply String.eqb_eq in E. subst k.
  assert (H1 : dict_get k2 d1 = None) by now apply dict_get_None_keys.
  assert (H2 : dict_get k2 d2 = None)
    by (apply dict_get_None_keys; now rewrite <- Hk).
  now rewrite H1, H2.
Qed.

(** ** Comparing timestamps *)

Lemma dt_lt_aware (a b : datetime) (ia ib : Z) :
  instant a = Some ia -> instant b = Some ib ->
  dt_lt a b = Ok (ia <? ib)%Z.
Proof.
  unfold instant, dt_lt, dt_compare.
  destruct (tzinfo a); [|discriminate]. destruct (tzinfo b); [|discriminate].
  intros H1 H2. injection H1 as <-. injection H2 as <-. simpl.
  unfold Z.ltb. now destruct (_ ?= _)%Z.
Qed.

Lemma dt_le_aware (a b : datetime) (ia ib : Z) :
  instant a = Some ia -> instant b = Some ib ->
  dt_le a b = Ok (ia <=? ib)%Z.
Proof.
  unfold instant, dt_le, dt_compare.
  destruct (tzinfo a); [|discriminate]. destruct (tzinfo b); [|discriminate].
  intros H1 H2. injection H1 as <-. injection H2 as <-. simpl.
  unfold Z.leb. now destruct (_ ?= _)%Z.
Qed.

Lemma cutoff_of_instant (now : Z) :
  instant (cutoff_of now) = Some (cutoff_instant now).
Proof.
  unfold instant, cutoff_of, cutoff_instant. simpl. f_equal. lia.
Qed.

(** ** Aggregation: one entry *)

Section Aggregation.
Context {lib : TimeLib}.

(** The incoming timestamp is always aware: a naive value is given UTC. *)
Lemma pub_dt_of_aware (item : NewsItem) (p : datetime) :
  pub_dt_of item = Some p -> exists ip, instant p = Some ip.
Proof.
  unfold pub_dt_of, instant.
  destruct (item_published item) as [s|]; [|discriminate].
  destruct (PyStr.nonempty s); [|discriminate].
  destruct (fromisoformat s) as [d|]; [|discriminate].
  destruct (tzinfo d) as [off|] eqn:E; intros H; injection H as <-.
  - rewrite E. eauto.
  - simpl. eauto.
Qed.

Lemma incoming_instant_None (item : NewsItem) :
  incoming_instant item = None <-> pub_dt_of item = None.
Proof.
  unfold incoming_instant. destruct (pub_dt_of item) as [p|] eqn:E.
  - destruct (pub_dt_of_aware item p E) as [ip ->]. split; discriminate.
  - tauto.
Qed.

(** A stored timestamp that reads back aware is the one the item had when
    it came in. *)
Lemma existing_instant_aware (item : NewsItem) :
  reads_back_aware item = true ->
  pub_dt_of item = existing_dt_of item /\
  existing_instant item = incoming_instant item /\
  (existing_instant item = None -> existing_dt_of item = None).
Proof.
  unfold reads_back_aware, existing_instant, incoming_instant, pub_dt_of,
    existing_dt_of, instant.
  destruct (item_published item) as [s|]; [|auto].
  destruct (PyStr.nonempty s); [|auto].
  destruct (fromisoformat s) as [d|]; [|auto].
  destruct (tzinfo d) as [off|] eqn:E; [|discriminate].
  rewrite E. repeat split. discriminate.
Qed.

Lemma known_ge_spec (existing item : NewsItem) :
  known_ge existing item = true <->
  exists e p, existing_instant existing = Some e /\
              incoming_instant item = Some p /\ (p <= e)%Z.
Proof.
  unfold known_ge.
  destruct (existing_instant existing) as [e|];
    destruct (incoming_instant item) as [p|].
  - rewrite Z.leb_le. split.
    + intros H. now exists e, p.
    + intros [e' [p' [He [Hp H]]]]. injection He as <-. now injection Hp as <-.
  - split; [discriminate | intros [e' [p' [_ [H _]]]]; discriminate].
  - split; [discriminate | intros [e' [p' [H _]]]; discriminate].
  - split; [discriminate | intros [e' [p' [H _]]]; discriminate].
Qed.

(** The comparison of the merge, for a stored item that reads back aware. *)
Lemma not_newer_known_ge (existing item : NewsItem) :
  reads_back_aware existing = true ->
  not_newer (existing_dt_of existing) (pub_dt_of item) = Ok (known_ge existing item).
Proof.
  intros Haware. unfold not_newer, known_ge, existing_instant, incoming_instant.
  unfold reads_back_aware in Haware.
  destruct (existing_dt_of existing) as [e|]; [|reflexivity].
  destruct (pub_dt_of item) as [p|] eqn:Ep.
  - destruct (pub_dt_of_aware item p Ep) as [ip Hip].
    assert (He : exists ie, instant e = Some ie).
    { unfold instant. destruct (tzinfo e); [eauto | discriminate]. }
    destruct He as [ie Hie]. rewrite Hip, Hie. now apply dt_le_aware.
  - now destruct (instant e).
Qed.

(** C1. When the key of an incoming item is already in the mapping, with a
    stored item of the pipeline (its [published] reads back aware): if
    both timestamps parse and the stored one is greater than or equal to
    the incoming one the mapping is left as it is; in every other case
    the incoming item takes the place of the stored one under that key. *)
Theorem merge_tie_break (all_items : dict) (item existing : NewsItem) :
  dict_get (canonical_link (item_link item)) all_items = Some existing ->
  reads_back_aware existing = true ->
  (known_ge existing item = true <->
   exists e p, existing_instant existing = Some e /\
               incoming_instant item = Some p /\ (p <= e)%Z) /\
  merge_item all_items item (pub_dt_of item) =
    Ok (if known_ge existing item then all_items
        else dict_set (canonical_link (item_link item)) item all_items) /\
  dict_get (canonical_link (item_link item))
           (dict_set (canonical_link (item_link item)) item all_items) = Some item.
Proof.
  intros Hget Haware. split; [apply known_ge_spec|]. split.
  - unfold merge_item. rewrite Hget, (not_newer_known_ge _ _ Haware). simpl.
    now destruct (known_ge existing item).
  - apply dict_get_set_same.
Qed.

(** What one entry can do to the mapping. *)
Lemma process_entry_cases (cutoff : datetime) (feed_title category : string)
      (all_items all_items' : dict) (entry : RawEntry) :
  process_entry cutoff feed_title category all_items entry = Ok all_items' ->
  all_items' = all_items \/
  exists item,
    parse_entry entry feed_title category = Ok (Some item) /\
    before_cutoff (pub_dt_of item) cutoff = Ok false /\
    all_items' = dict_set (canonical_link (item_link item)) item all_items.
Proof.
  unfold process_entry.
  destruct (parse_entry entry feed_title category) as [[item|]|x]; simpl;
    [|intros H; injection H as <-; now left | discriminate].
  destruct (before_cutoff (pub_dt_of item) cutoff) as [[|]|e] eqn:Eold; simpl;
    [intros H; injection H as <-; now left | | discriminate].
  unfold merge_item.
  destruct (dict_get _ all_items) as [existing|].
  - destruct (not_newer _ _) as [[|]|e]; simpl; [| |discriminate];
      intros H; injection H as <-; [now left|].
    right. exists item. auto.
  - intros H; injection H as <-. right. exists item. auto.
Qed.

Lemma before_cutoff_instant (item : NewsItem) (now : Z) :
  before_cutoff (pub_dt_of item) (cutoff_of now) =
  Ok match incoming_instant item with
     | Some p => (p <? cutoff_instant now)%Z
     | None => false
     end.
Proof.
  unfold before_cutoff, incoming_instant.
  destruct (pub_dt_of item) as [p|] eqn:Ep; [|reflexivity].
  destruct (pub_dt_of_aware item p Ep) as [ip Hip]. rewrite Hip.
  apply dt_lt_aware; [exact Hip | apply cutoff_of_instant].
Qed.

Lemma process_entries_app (cutoff : datetime) (feed_title category : string)
      (es1 es2 : list RawEntry) (m : dict) :
  process_entries cutoff feed_title category (es1 ++ es2) m =
  (m' <- process_entries cutoff feed_title category es1 m ;;
   process_entries cutoff feed_title category es2 m').
Proof.
  revert m. induction es1 as [|e es1 IH]; intros m; simpl; [reflexivity|].
  destruct (process_entry cutoff feed_title category m e); simpl; [apply IH | reflexivity].
Qed.

(** A property of the stored pairs that every insertion establishes holds
    of the final mapping. *)
Lemma process_entries_invariant (P : string -> NewsItem -> Prop)
      (cutoff : datetime) (feed_title category : string) :
  (forall entry item,
      parse_entry entry feed_title category = Ok (Some item) ->
      before_cutoff (pub_dt_of item) cutoff = Ok false ->
      P (canonical_link (item_link item)) item) ->
  forall entries m m',
    (forall k it, In (k, it) m -> P k it) ->
    process_entries cutoff feed_title category entries m = Ok m' ->
    forall k it, In (k, it) m' -> P k it.
Proof.
  intros Hins. induction entries as [|e entries IH]; intros m m' Hm; simpl.
  - intros H. injection H as <-. exact Hm.
  - destruct (process_entry cutoff feed_title category m e) as [m1|] eqn:E;
      simpl; [|discriminate].
    apply IH. intros k it Hin.
    destruct (process_entry_cases _ _ _ _ _ _ E) as [-> | [item [Hp [Hc ->]]]];
      [now apply Hm|].
    apply dict_set_In in Hin as [Heq | Hin]; [|now apply Hm].
    injection Heq as -> ->. now apply (Hins e).
Qed.

Lemma process_feeds_invariant (P : string -> NewsItem -> Prop)
      (cutoff : datetime) (fetch : string -> list RawEntry) :
  (forall entry feed_title category item,
      parse_entry entry feed_title category = Ok (Some item) ->
      before_cutoff (pub_dt_of item) cutoff = Ok false ->
      P (canonical_link (item_link item)) item) ->
  forall feeds m m',
    (forall k it, In (k, it) m -> P k it) ->
    process_feeds cutoff fetch feeds m = Ok m' ->
    forall k it, In (k, it) m' -> P k it.
Proof.
  intros Hins. induction feeds as [|[[feed_title xml_url] category] feeds IH];
    intros m m' Hm; simpl.
  - intros H. injection H as <-. exact Hm.
  - destruct (process_entries cutoff feed_title category (fetch xml_url) m)
      as [m1|] eqn:E; simpl; [|discriminate].
    apply IH.
    apply (process_entries_invariant P cutoff feed_title category
             (fun entry item => Hins entry feed_title category item) _ _ _ Hm E).
Qed.

(** C3. With the cutoff computed once from the time of the run: an entry
    whose item has a known timestamp strictly earlier than the cutoff
    leaves the mapping as it is; an entry whose item has no timestamp, or
    one that does not parse, is never dropped by the filter and is stored
    under its key; and the final mapping holds no item with a known
    timestamp earlier than the cutoff. *)
Theorem recency_filter (now : Z) :
  (forall feed_title category all_items entry item p,
      parse_entry entry feed_title category = Ok (Some item) ->
      incoming_instant item = Some p -> (p < cutoff_instant now)%Z ->
      process_entry (cutoff_of now) feed_title category all_items entry
      = Ok all_items) /\
  (forall feed_title category all_items entry item,
      parse_entry entry feed_title category = Ok (Some item) ->
      incoming_instant item = None ->
      before_cutoff (pub_dt_of item) (cutoff_of now) = Ok false /\
      process_entry (cutoff_of now) feed_title category all_items entry
      = Ok (dict_set (canonical_link (item_link item)) item all_items)) /\
  (forall fetch feeds all_items,
      aggregate now fetch feeds = Ok all_items ->
      forall k item p,
        In (k, item) all_items -> incoming_instant item = Some p ->
        (cutoff_instant now <= p)%Z).
Proof.
  split; [|split].
  - intros feed_title category all_items entry item p Hparse Hp Hlt.
    unfold process_entry. rewrite Hparse. cbn [bind]. rewrite before_cutoff_instant, Hp. simpl.
    apply Z.ltb_lt in Hlt. now rewrite Hlt.
  - intros feed_title category all_items entry item Hparse Hp.
    unfold process_entry. rewrite Hparse. cbn [bind]. rewrite before_cutoff_instant, Hp. simpl.
    split; [reflexivity|].
    apply incoming_instant_None in Hp. rewrite Hp. unfold merge_item.
    destruct (dict_get _ all_items) as [existing|]; [|reflexivity].
    unfold not_newer. now destruct (existing_dt_of existing).
  - intros fetch feeds all_items Hrun k item p Hin Hp.
    unfold aggregate in Hrun.
    refine (process_feeds_invariant
              (fun _ it => forall q, incoming_instant it = Some q ->
                                     (cutoff_instant now <= q)%Z)
              (cutoff_of now) fetch _ feeds [] all_items _ Hrun k item Hin p Hp).
    + intros entry ft cat it _ Hc q Hq.
      rewrite before_cutoff_instant, Hq in Hc. injection Hc as Hc.
      apply Z.ltb_ge in Hc. exact Hc.
    + intros k' it' [].
Qed.

End Aggregation.

(** ** Keys and stored links *)

Section Keys.
Context {lib : TimeLib}.

Lemma parse_entry_link (entry : RawEntry) (feed_title category : string)
      (item : NewsItem) :
  parse_entry entry feed_title category = Ok (Some item) ->
  item_link item = PyStr.str_or_empty (PyStr.por (attr_link entry) (get_link entry)).
Proof.
  intros H. apply parse_entry_Some in H as [_ [_ [published [_ ->]]]].
  reflexivity.
Qed.

(** C10. Every step of the merge keeps: each key of the mapping is the
    link of the item stored under it with its trailing slashes stripped.
    The stored item is the one [parse_entry] returned, its link as the
    entry gave it; so the link of a stored item need not be its key, as
    in the run of [Fixture.two_link_feeds], where the surviving link ends in a
    slash and the key does not. *)
Theorem key_is_stripped_link :
  (forall cutoff feed_title category all_items entry all_items',
      (forall k it, In (k, it) all_items -> k = canonical_link (item_link it)) ->
      process_entry cutoff feed_title category all_items entry = Ok all_items' ->
      forall k it,
        In (k, it) all_items' ->
        k = canonical_link (item_link it) /\
        (In (k, it) all_items \/ parse_entry entry feed_title category = Ok (Some it))) /\
  (forall now fetch feeds all_items,
      aggregate now fetch feeds = Ok all_items ->
      forall k it,
        In (k, it) all_items ->
        k = canonical_link (item_link it) /\
        exists entry feed_title category,
          parse_entry entry feed_title category = Ok (Some it) /\
          item_link it =
            PyStr.str_or_empty (PyStr.por (attr_link entry) (get_link entry))) /\
  (exists it,
      aggregate (lib := Fixture.lib) Fixture.now Fixture.two_link_fetch
                Fixture.two_link_feeds
      = Ok [("http://e.com/p", it)] /\
      item_link it = "http://e.com/p/").
Proof.
  split; [|split].
  - intros cutoff feed_title category m entry m' Hm Hstep k it Hin.
    destruct (process_entry_cases _ _ _ _ _ _ Hstep) as [-> | [item [Hp [_ ->]]]].
    + split; [now apply Hm | now left].
    + apply dict_set_In in Hin as [Heq | Hin].
      * injection Heq as -> ->. split; [reflexivity | now right].
      * split; [now apply Hm | now left].
  - intros now fetch feeds m Hrun k it Hin. unfold aggregate in Hrun.
    refine (process_feeds_invariant
              (fun k it =>
                 k = canonical_link (item_link it) /\
                 exists entry feed_title category,
                   parse_entry entry feed_title category = Ok (Some it) /\
                   item_link it =
                     PyStr.str_or_empty
                       (PyStr.por (attr_link entry) (get_link entry)))
              (cutoff_of now) fetch _ feeds [] m _ Hrun k it Hin).
    + intros entry ft cat item Hp _. split; [reflexivity|].
      exists entry, ft, cat. split; [exact Hp | now apply (parse_entry_link entry ft cat)].
    + intros k' it' [].
  - eexists. split; vm_compute; reflexivity.
Qed.

End Keys.

(** ** Aggregation: the whole run *)

Section Idempotence.
Context {lib : TimeLib}.

Lemma merge_item_pure (m : dict) (it : NewsItem) :
  all_aware m -> merge_item m it (pub_dt_of it) = Ok (pmerge m it).
Proof.
  intros Hm. unfold merge_item, pmerge, key_of.
  destruct (dict_get _ m) as [existing|] eqn:G; [|reflexivity].
  rewrite (not_newer_known_ge existing it); [|eapply Hm, dict_get_In, G].
  simpl. now destruct (known_ge existing it).
Qed.

Lemma pmerge_aware (m : dict) (it : NewsItem) :
  all_aware m -> reads_back_aware it = true -> all_aware (pmerge m it).
Proof.
  intros Hm Hit k v Hin. unfold pmerge in Hin.
  assert (Hset : In (k, v) (dict_set (key_of it) it m) -> reads_back_aware v = true).
  { intros H. apply dict_set_In in H as [H | H]; [|now apply (Hm k)].
    now injection H as -> ->. }
  destruct (dict_get (key_of it) m) as [existing|]; [|now apply Hset].
  destruct (known_ge existing it); [now apply (Hm k) | now apply Hset].
Qed.

Lemma fold_pmerge_aware (xs : list NewsItem) (m : dict) :
  all_aware m -> forallb reads_back_aware xs = true ->
  all_aware (fold_left pmerge xs m).
Proof.
  revert m. induction xs as [|x xs IH]; intros m Hm Hxs; simpl; [exact Hm|].
  simpl in Hxs. apply andb_true_iff in Hxs as [Hx Hxs].
  apply IH; [now apply pmerge_aware | exact Hxs].
Qed.

Lemma process_entries_pure (now : Z) (feed_title category : string)
      (entries : list RawEntry) (m : dict) :
  all_aware m ->
  entries_convert feed_title category entries = true ->
  forallb reads_back_aware (produced_items feed_title category entries) = true ->
  process_entries (cutoff_of now) feed_title category entries m
  = Ok (fold_left pmerge (offers now feed_title category entries) m).
Proof.
  revert m. induction entries as [|e entries IH]; intros m Hm Hconv Hall;
    [reflexivity|].
  unfold offers, produced_items, entries_convert in *.
  cbn [flat_map process_entries forallb] in *.
  unfold process_entry.
  destruct (parse_entry e feed_title category) as [[it|]|x];
    simpl in Hall, Hconv |- *; [| now apply IH | discriminate].
  apply andb_true_iff in Hall as [Hit Hall].
  rewrite before_cutoff_instant. unfold admitted. simpl.
  destruct (incoming_instant it) as [p|]; simpl.
  - destruct (p <? cutoff_instant now)%Z; simpl; [now apply IH|].
    rewrite merge_item_pure by exact Hm. simpl.
    apply IH; [now apply pmerge_aware | exact Hconv | exact Hall].
  - rewrite merge_item_pure by exact Hm. simpl.
    apply IH; [now apply pmerge_aware | exact Hconv | exact Hall].
Qed.

(** A loop that returns met no entry on which [parse_entry] raises. *)
Lemma process_entries_Ok_convert (cutoff : datetime) (feed_title category : string)
      (entries : list RawEntry) (m m' : dict) :
  process_entries cutoff feed_title category entries m = Ok m' ->
  entries_convert feed_title category entries = true.
Proof.
  unfold entries_convert. revert m.
  induction entries as [|e entries IH]; intros m; [reflexivity|].
  cbn [process_entries forallb]. unfold process_entry at 1.
  destruct (parse_entry e feed_title category) as [r|x]; simpl; [|discriminate].
  match goal with
  | |- bind ?c _ = _ -> _ => destruct c as [m1|y]; simpl; [|discriminate]
  end.
  apply IH.
Qed.

Lemma offers_aware (now : Z) (feed_title category : string)
      (entries : list RawEntry) :
  forallb reads_back_aware (produced_items feed_title category entries) = true ->
  forallb reads_back_aware (offers now feed_title category entries) = true.
Proof.
  rewrite !forallb_forall. intros H x Hin. apply H.
  unfold offers in Hin. now apply filter_In in Hin.
Qed.

Lemma all_offers_aware (now : Z) (fetch : string -> list RawEntry)
      (feeds : list Feed) :
  feeds_read_back_aware fetch feeds = true ->
  forallb reads_back_aware (all_offers now fetch feeds) = true.
Proof.
  unfold feeds_read_back_aware, all_offers.
  induction feeds as [|[[ft url] cat] feeds IH]; simpl; [reflexivity|].
  intros H. apply andb_true_iff in H as [H1 H2].
  rewrite forallb_app, (offers_aware now ft cat _ H1). simpl. now apply IH.
Qed.

Lemma process_feeds_pure (now : Z) (fetch : string -> list RawEntry)
      (feeds : list Feed) (m : dict) :
  all_aware m ->
  feeds_convert fetch feeds = true ->
  feeds_read_back_aware fetch feeds = true ->
  process_feeds (cutoff_of now) fetch feeds m
  = Ok (fold_left pmerge (all_offers now fetch feeds) m).
Proof.
  unfold feeds_read_back_aware, feeds_convert, all_offers. revert m.
  induction feeds as [|[[ft url] cat] feeds IH]; intros m Hm Hconv Hall;
    [reflexivity|].
  simpl in Hall, Hconv |- *.
  apply andb_true_iff in Hall as [H1 H2].
  apply andb_true_iff in Hconv as [C1 C2].
  rewrite (process_entries_pure now ft cat _ m Hm C1 H1). simpl.
  rewrite fold_left_app. apply IH; [|exact C2|exact H2].
  apply fold_pmerge_aware; [exact Hm | now apply offers_aware].
Qed.

Lemma process_feeds_Ok_convert (cutoff : datetime) (fetch : string -> list RawEntry)
      (feeds : list Feed) (m m' : dict) :
  process_feeds cutoff fetch feeds m = Ok m' ->
  feeds_convert fetch feeds = true.
Proof.
  unfold feeds_convert. revert m.
  induction feeds as [|[[ft url] cat] feeds IH]; intros m; [reflexivity|].
  cbn [process_feeds forallb].
  destruct (process_entries cutoff ft cat (fetch url) m) as [m1|x] eqn:E;
    simpl; [|discriminate].
  intros H. rewrite (process_entries_Ok_convert _ _ _ _ _ _ E). simpl.
  now apply (IH m1).
Qed.

(** *** The value under one key *)

Lemma dict_get_pmerge (k : string) (m : dict) (x : NewsItem) :
  dict_get k (pmerge m x) =
  if String.eqb (key_of x) k then trans (dict_get k m) x else dict_get k m.
Proof.
  unfold pmerge, trans. destruct (String.eqb (key_of x) k) eqn:E.
  - apply String.eqb_eq in E. subst k.
    destruct (dict_get (key_of x) m) as [existing|] eqn:G.
    + destruct (known_ge existing x); [exact G | apply dict_get_set_same].
    + apply dict_get_set_same.
  - apply String.eqb_neq in E.
    assert (Hother : dict_get k (dict_set (key_of x) x m) = dict_get k m)
      by (apply dict_get_set_other; congruence).
    destruct (dict_get (key_of x) m) as [existing|]; [|exact Hother].
    destruct (known_ge existing x); [reflexivity | exact Hother].
Qed.

Lemma dict_get_fold_pmerge (k : string) (xs : list NewsItem) (m : dict) :
  dict_get k (fold_left pmerge xs m) =
  fold_left trans (filter (fun x => String.eqb (key_of x) k) xs) (dict_get k m).
Proof.
  revert m. induction xs as [|x xs IH]; intros m; simpl; [reflexivity|].
  rewrite IH, dict_get_pmerge. now destruct (String.eqb (key_of x) k).
Qed.

Lemma trans_unknown (s : option NewsItem) (x : NewsItem) :
  incoming_instant x = None -> trans s x = Some x.
Proof.
  intros H. unfold trans, known_ge. destruct s as [existing|]; [|reflexivity].
  rewrite H. now destruct (existing_instant existing).
Qed.

Lemma fold_trans_const (ys : list NewsItem) :
  (exists x, In x ys /\ incoming_instant x = None) ->
  forall s s', fold_left trans ys s = fold_left trans ys s'.
Proof.
  induction ys as [|y ys IH]; intros [x [Hin Hx]] s s'; [destruct Hin|].
  simpl. destruct (incoming_instant y) eqn:Ey.
  - destruct Hin as [-> | Hin]; [congruence|]. apply IH. now exists x.
  - now rewrite !trans_unknown.
Qed.

Lemma fold_trans_keep (r : NewsItem) (e : Z) (ys : list NewsItem) :
  existing_instant r = Some e -> bounded e ys ->
  fold_left trans ys (Some r) = Some r.
Proof.
  intros Hr. induction ys as [|y ys IH]; intros Hb; [reflexivity|].
  cbn [fold_left trans]. destruct (Hb y (or_introl eq_refl)) as [p [Hp Hle]].
  unfold known_ge. rewrite Hr, Hp.
  apply Z.leb_le in Hle. rewrite Hle. apply IH.
  intros z Hz. apply Hb. now right.
Qed.

Lemma fold_trans_max (ys : list NewsItem) :
  (forall y, In y ys -> reads_back_aware y = true /\ incoming_instant y <> None) ->
  forall a ea,
    existing_instant a = Some ea ->
    exists r er,
      fold_left trans ys (Some a) = Some r /\
      existing_instant r = Some er /\ (ea <= er)%Z /\ bounded er ys.
Proof.
  induction ys as [|y ys IH]; intros Hys a ea Ha.
  - exists a, ea. repeat split; trivial; [lia | intros y []].
  - destruct (Hys y (or_introl eq_refl)) as [Hy Hknown].
    destruct (incoming_instant y) as [p|] eqn:Ep; [|congruence].
    assert (Hys' : forall z, In z ys ->
                             reads_back_aware z = true /\ incoming_instant z <> None)
      by (intros z Hz; apply Hys; now right).
    cbn [fold_left trans]. unfold known_ge. rewrite Ha, Ep.
    destruct (p <=? ea)%Z eqn:Hle.
    + apply Z.leb_le in Hle.
      destruct (IH Hys' a ea Ha) as [r [er [Hf [Hr [Hge Hb]]]]].
      exists r, er. repeat split; trivial.
      intros z [<- | Hz]; [exists p; split; [exact Ep | lia] | now apply Hb].
    + apply Z.leb_gt in Hle.
      assert (Hye : existing_instant y = Some p).
      { destruct (existing_instant_aware y Hy) as [_ [-> _]]. exact Ep. }
      destruct (IH Hys' y p Hye) as [r [er [Hf [Hr [Hge Hb]]]]].
      exists r, er. repeat split; trivial; [lia|].
      intros z [<- | Hz]; [exists p; split; [exact Ep | lia] | now apply Hb].
Qed.

Lemma fold_trans_idem (ys : list NewsItem) :
  forallb reads_back_aware ys = true ->
  fold_left trans ys (fold_left trans ys None) = fold_left trans ys None.
Proof.
  intros Haware. rewrite forallb_forall in Haware.
  destruct (existsb (fun y => match incoming_instant y with
                              | Some _ => false
                              | None => true
                              end) ys) eqn:Ex.
  - apply fold_trans_const. apply existsb_exists in Ex as [x [Hin Hx]].
    exists x. split; [exact Hin|]. now destruct (incoming_instant x).
  - assert (Hknown : forall y, In y ys ->
                reads_back_aware y = true /\ incoming_instant y <> None).
    { intros y Hin. split; [now apply Haware|]. intros Hn.
      assert (Ht : existsb (fun y => match incoming_instant y with
                                     | Some _ => false
                                     | None => true
                                     end) ys = true).
      { apply existsb_exists. exists y. split; [exact Hin | now rewrite Hn]. }
      congruence. }
    destruct ys as [|y ys]; [reflexivity|]. cbn [fold_left trans].
    destruct (Hknown y (or_introl eq_refl)) as [Hy Hyk].
    destruct (incoming_instant y) as [p|] eqn:Ep; [|congruence].
    assert (Hye : existing_instant y = Some p).
    { destruct (existing_instant_aware y Hy) as [_ [-> _]]. exact Ep. }
    destruct (fold_trans_max ys (fun z Hz => Hknown z (or_intror Hz)) y p Hye)
      as [r [er [Hf [Hr [Hge Hb]]]]].
    rewrite Hf. cbn [trans]. unfold known_ge. rewrite Hr, Ep.
    apply Z.leb_le in Hge. rewrite Hge. now apply (fold_trans_keep r er).
Qed.

(** *** The keys *)

Lemma dict_keys_pmerge (m : dict) (x : NewsItem) :
  dict_keys (pmerge m x) =
  match dict_get (key_of x) m with
  | Some _ => dict_keys m
  | None => dict_keys m ++ [key_of x]
  end.
Proof.
  unfold pmerge. pose proof (dict_keys_set (key_of x) x m) as Hset.
  destruct (dict_get (key_of x) m) as [existing|]; [|exact Hset].
  destruct (known_ge existing x); [reflexivity | exact Hset].
Qed.

Lemma dict_keys_pmerge_NoDup (m : dict) (x : NewsItem) :
  NoDup (dict_keys m) -> NoDup (dict_keys (pmerge m x)).
Proof.
  intros Hnd. unfold pmerge.
  destruct (dict_get (key_of x) m) as [existing|];
    [destruct (known_ge existing x); trivial|]; now apply dict_keys_set_NoDup.
Qed.

Lemma dict_keys_fold_NoDup (xs : list NewsItem) (m : dict) :
  NoDup (dict_keys m) -> NoDup (dict_keys (fold_left pmerge xs m)).
Proof.
  revert m. induction xs as [|x xs IH]; intros m Hnd; simpl; [exact Hnd|].
  apply IH. now apply dict_keys_pmerge_NoDup.
Qed.

Lemma dict_keys_fold_incl (xs : list NewsItem) (m : dict) (k : string) :
  In k (dict_keys m) -> In k (dict_keys (fold_left pmerge xs m)).
Proof.
  revert m. induction xs as [|x xs IH]; intros m Hin; simpl; [exact Hin|].
  apply IH. rewrite dict_keys_pmerge.
  destruct (dict_get (key_of x) m); [exact Hin | apply in_or_app; now left].
Qed.

Lemma dict_keys_fold_cover (xs : list NewsItem) (m : dict) (x : NewsItem) :
  In x xs -> In (key_of x) (dict_keys (fold_left pmerge xs m)).
Proof.
  revert m. induction xs as [|y xs IH]; intros m Hin; [destruct Hin|].
  simpl. destruct Hin as [-> | Hin]; [|now apply IH].
  apply dict_keys_fold_incl. rewrite dict_keys_pmerge.
  destruct (dict_get (key_of x) m) eqn:G.
  - destruct (in_dec string_dec (key_of x) (dict_keys m)) as [H | H]; [exact H|].
    apply dict_get_None_keys in H. congruence.
  - apply in_or_app. right. now left.
Qed.

Lemma dict_keys_fold_stable (xs : list NewsItem) (m : dict) :
  (forall x, In x xs -> In (key_of x) (dict_keys m)) ->
  dict_keys (fold_left pmerge xs m) = dict_keys m.
Proof.
  revert m. induction xs as [|x xs IH]; intros m Hin; simpl; [reflexivity|].
  assert (Hsame : dict_keys (pmerge m x) = dict_keys m).
  { rewrite dict_keys_pmerge. destruct (dict_get (key_of x) m) eqn:G; [reflexivity|].
    apply dict_get_None_keys in G. exfalso. apply G, Hin. now left. }
  rewrite IH; [exact Hsame|].
  intros y Hy. rewrite Hsame. apply Hin. now right.
Qed.

Lemma fold_pmerge_idem (xs : list NewsItem) :
  forallb reads_back_aware xs = true ->
  fold_left pmerge xs (fold_left pmerge xs []) = fold_left pmerge xs [].
Proof.
  intros Haware. apply dict_ext.
  - apply dict_keys_fold_NoDup, dict_keys_fold_NoDup. constructor.
  - apply dict_keys_fold_stable. intros x Hin. now apply dict_keys_fold_cover.
  - intros k. rewrite dict_get_fold_pmerge, (dict_get_fold_pmerge k xs []).
    simpl. apply fold_trans_idem.
    rewrite forallb_forall in *. intros x Hin. apply Haware.
    now apply filter_In in Hin.
Qed.

(** C7. For feeds whose items read back aware (all do when
    [fromisoformat] inverts [isoformat]): whenever the run returns a
    mapping, processing every entry of every feed a second time, with the
    same cutoff and starting from that mapping, returns that mapping
    again; and the run does return a mapping, with that property, when no
    structured time of an entry fails to convert. *)
Theorem aggregate_twice (now : Z) (fetch : string -> list RawEntry)
        (feeds : list Feed) :
  feeds_read_back_aware fetch feeds = true ->
  (forall all_items,
      aggregate now fetch feeds = Ok all_items ->
      process_feeds (cutoff_of now) fetch feeds all_items = Ok all_items) /\
  (feeds_convert fetch feeds = true ->
   exists all_items,
     aggregate now fetch feeds = Ok all_items /\
     process_feeds (cutoff_of now) fetch feeds all_items = Ok all_items).
Proof.
  intros Haware.
  pose proof (all_offers_aware now fetch feeds Haware) as Hoffers.
  assert (Hempty : all_aware []) by (intros k it []).
  assert (Hrun : feeds_convert fetch feeds = true ->
                 aggregate now fetch feeds
                 = Ok (fold_left pmerge (all_offers now fetch feeds) []) /\
                 process_feeds (cutoff_of now) fetch feeds
                               (fold_left pmerge (all_offers now fetch feeds) [])
                 = Ok (fold_left pmerge (all_offers now fetch feeds) [])).
  { intros Hconv. split.
    - unfold aggregate. now apply process_feeds_pure.
    - rewrite process_feeds_pure; trivial.
      + f_equal. now apply fold_pmerge_idem.
      + now apply fold_pmerge_aware. }
  split.
  - intros all_items Hfirst.
    destruct (Hrun (process_feeds_Ok_convert _ _ _ _ _ Hfirst)) as [H1 H2].
    unfold aggregate in *. rewrite Hfirst in H1. injection H1 as ->. exact H2.
  - intros Hconv. eexists. now apply Hrun.
Qed.

(** Python documents [fromisoformat] as the inverse of [isoformat]; with
    that, every item [parse_entry] returns reads back aware. *)
Lemma parse_entry_reads_back_aware
      (entry : RawEntry) (feed_title category : string) (item : NewsItem) :
  (forall d, fromisoformat (isoformat d) = Some d) ->
  parse_entry entry feed_title category = Ok (Some item) ->
  reads_back_aware item = true.
Proof.
  intros Hinv Hparse.
  apply parse_entry_Some in Hparse as [_ [_ [r [Hr ->]]]].
  assert (Htz : forall d, r = Some d -> tzinfo d <> None).
  { intros d ->. unfold resolve_published in Hr.
    destruct (attr_published_parsed entry) as [st|].
    { destruct (from_struct_time st) as [d'|] eqn:E; simpl in Hr; [|discriminate].
      injection Hr as ->. apply from_struct_time_Ok in E as [t [_ [_ ->]]].
      discriminate. }
    destruct (attr_updated_parsed entry) as [st|].
    { destruct (from_struct_time st) as [d'|] eqn:E; simpl in Hr; [|discriminate].
      injection Hr as ->. apply from_struct_time_Ok in E as [t [_ [_ ->]]].
      discriminate. }
    injection Hr as Hr. destruct (PyStr.truthy _); [|discriminate].
    destruct (fromisoformat _) as [d'|]; [|discriminate].
    destruct (tzinfo d') eqn:E; injection Hr as <-;
      [congruence | discriminate]. }
  unfold reads_back_aware, existing_dt_of. simpl.
  destruct r as [d|]; simpl; [|reflexivity].
  destruct (PyStr.nonempty (isoformat d)); [|reflexivity].
  rewrite Hinv. specialize (Htz d eq_refl). now destruct (tzinfo d).
Qed.

End Idempotence.

(** ** Writer *)

Section SortFacts.
Variable key : NewsItem -> Z.

Lemma insert_desc_perm (x : NewsItem) (l : list NewsItem) :
  Permutation (insert_desc key x l) (x :: l).
Proof.
  induction l as [|y r IH]; simpl; [reflexivity|].
  destruct (key x <? key y)%Z; [|reflexivity].
  rewrite IH. apply perm_swap.
Qed.

Lemma sort_desc_perm (l : list NewsItem) : Permutation (sort_desc key l) l.
Proof.
  induction l as [|x r IH]; simpl; [reflexivity|].
  rewrite insert_desc_perm. now constructor.
Qed.

Lemma insert_desc_sorted (x : NewsItem) (l : list NewsItem) :
  StronglySorted (key_ge key) l -> StronglySorted (key_ge key) (insert_desc key x l).
Proof.
  induction l as [|y r IH]; intros Hs; simpl.
  - constructor; constructor.
  - apply StronglySorted_inv in Hs as [Hr Hy].
    destruct (key x <? key y)%Z eqn:E.
    + apply Z.ltb_lt in E. constructor; [now apply IH|].
      rewrite Forall_forall in *. intros z Hz.
      apply (Permutation_in _ (insert_desc_perm x r)) in Hz as [<- | Hz];
        [unfold key_ge; lia | now apply Hy].
    + apply Z.ltb_ge in E. constructor; [now constructor|].
      constructor; [exact E|].
      rewrite Forall_forall in *. intros z Hz. specialize (Hy z Hz).
      unfold key_ge in *. lia.
Qed.

Lemma sort_desc_sorted (l : list NewsItem) :
  StronglySorted (key_ge key) (sort_desc key l).
Proof.
  induction l as [|x r IH]; simpl; [constructor | now apply insert_desc_sorted].
Qed.

Lemma sorted_after (before after : list NewsItem) (x : NewsItem) :
  StronglySorted (key_ge key) (before ++ x :: after) ->
  forall y, In y after -> (key y <= key x)%Z.
Proof.
  induction before as [|b before IH]; simpl; intros Hs y Hy.
  - apply StronglySorted_inv in Hs as [_ Hx].
    rewrite Forall_forall in Hx. now apply Hx.
  - apply StronglySorted_inv in Hs as [Hs _]. now apply IH.
Qed.

End SortFacts.

Section Writer.
Context {lib : TimeLib}.

Lemma sort_key_unknown (x : NewsItem) :
  existing_dt_of x = None -> sort_key x = 0%Z.
Proof.
  unfold existing_dt_of, sort_key.
  destruct (item_published x) as [p|]; [|reflexivity].
  destruct (PyStr.nonempty p); [|reflexivity].
  now intros ->.
Qed.

(** The key of an item whose [published] carries a zone is the float of
    the seconds from the epoch to its instant. *)
Lemma sort_key_dated (x : NewsItem) (i : Z) :
  existing_instant x = Some i -> sort_key x = total_seconds i.
Proof.
  unfold existing_instant, existing_dt_of, sort_key, timestamp, instant.
  destruct (item_published x) as [p|]; [|discriminate].
  destruct (PyStr.nonempty p); [|discriminate].
  destruct (fromisoformat p) as [d|]; [|discriminate].
  destruct (tzinfo d); [|discriminate]. intros H. now injection H as <-.
Qed.

Lemma items_list_In (all_items : dict) (x : NewsItem) :
  In x (items_list all_items) <-> In x (dict_values all_items).
Proof.
  unfold items_list. split; apply Permutation_in;
    [|apply Permutation_sym]; apply sort_desc_perm.
Qed.

Lemma positive_floats_In (all_items : dict) (x : NewsItem) (i : Z) :
  positive_floats all_items = true ->
  In x (dict_values all_items) -> existing_instant x = Some i ->
  (0 < i)%Z -> (0 < total_seconds i)%Z.
Proof.
  unfold positive_floats. rewrite forallb_forall. intros H Hin Hi Hpos.
  specialize (H x Hin). rewrite Hi in H.
  apply Z.ltb_lt in Hpos. rewrite Hpos in H. simpl in H. now apply Z.ltb_lt.
Qed.

(** Rounding to the nearest double keeps the sign; with that the
    condition on the mapping holds. *)
Lemma positive_floats_of_sign (all_items : dict) :
  (forall us, (0 < us)%Z -> (0 < total_seconds us)%Z) ->
  positive_floats all_items = true.
Proof.
  intros Hsign. unfold positive_floats. apply forallb_forall. intros x _.
  destruct (existing_instant x) as [i|]; [|reflexivity].
  destruct (0 <? i)%Z eqn:E; [|reflexivity]. simpl.
  apply Z.ltb_lt. apply Hsign. now apply Z.ltb_lt.
Qed.

(** C8. The output items are the values of the mapping, every one of them
    kept, in descending order of [sort_key], a float.  The key of an item
    whose [published] is [None], empty or not parseable is [0.0]; the key
    of an item whose [published] carries a zone is the float of the
    seconds from the epoch to its instant.  In the output no item with a
    positive key comes after an item without a usable date; so, the float
    of a positive instant being positive, no item dated after the epoch
    comes after an item without a usable date. *)
Theorem writer_sorts_descending (all_items : dict) :
  Permutation (items_list all_items) (dict_values all_items) /\
  StronglySorted (fun a b => (sort_key b <= sort_key a)%Z) (items_list all_items) /\
  (forall x, existing_dt_of x = None -> sort_key x = 0%Z) /\
  (forall x, item_published x = None -> sort_key x = 0%Z) /\
  (forall x i, existing_instant x = Some i -> sort_key x = total_seconds i) /\
  (forall k x, In (k, x) all_items -> In x (items_list all_items)) /\
  (forall before x after,
      items_list all_items = before ++ x :: after ->
      existing_dt_of x = None ->
      forall y, In y after -> ~ (0 < sort_key y)%Z) /\
  (positive_floats all_items = true ->
   forall before x after,
     items_list all_items = before ++ x :: after ->
     existing_dt_of x = None ->
     forall y i, In y after -> existing_instant y = Some i -> (i <= 0)%Z).
Proof.
  assert (Hafter : forall before x after,
             items_list all_items = before ++ x :: after ->
             existing_dt_of x = None ->
             forall y, In y after -> (sort_key y <= 0)%Z).
  { intros before x after Heq Hx y Hy.
    pose proof (sort_desc_sorted sort_key (dict_values all_items)) as Hs.
    unfold items_list in Heq. rewrite Heq in Hs.
    pose proof (sorted_after sort_key before after x Hs y Hy) as Hle.
    now rewrite (sort_key_unknown x Hx) in Hle. }
  repeat split.
  - apply sort_desc_perm.
  - apply (sort_desc_sorted sort_key).
  - apply sort_key_unknown.
  - intros x Hx. unfold sort_key. now rewrite Hx.
  - apply sort_key_dated.
  - intros k x Hin. apply items_list_In.
    unfold dict_values. change x with (snd (k, x)). now apply in_map.
  - intros before x after Heq Hx y Hy.
    pose proof (Hafter before x after Heq Hx y Hy). lia.
  - intros Hpos before x after Heq Hx y i Hy Hi.
    pose proof (Hafter before x after Heq Hx y Hy) as Hle.
    rewrite (sort_key_dated y i Hi) in Hle.
    destruct (Z.le_gt_cases i 0) as [|Hgt]; trivial.
    assert (Hin : In y (dict_values all_items)).
    { apply items_list_In. rewrite Heq. apply in_or_app. right. now right. }
    pose proof (positive_floats_In all_items y i Hpos Hin Hi Hgt). lia.
Qed.

End Writer.

(** ** When [fromisoformat] inverts [isoformat] *)

Section Inverse.
Context {lib : TimeLib}.
Hypothesis fromisoformat_isoformat : forall d, fromisoformat (isoformat d) = Some d.

Lemma produced_items_aware (feed_title category : string) (entries : list RawEntry) :
  forallb reads_back_aware (produced_items feed_title category entries) = true.
Proof.
  apply forallb_forall. intros it Hin. unfold produced_items in Hin.
  apply in_flat_map in Hin as [e [_ Hin]].
  destruct (parse_entry e feed_title category) as [[it'|]|x] eqn:E;
    [|destruct Hin|destruct Hin].
  destruct Hin as [<- | []].
  now apply (parse_entry_reads_back_aware e feed_title category).
Qed.

(** Every feed then yields items that read back aware, whatever it
    returns. *)
Lemma feeds_always_read_back_aware (fetch : string -> list RawEntry)
      (feeds : list Feed) :
  feeds_read_back_aware fetch feeds = true.
Proof.
  unfold feeds_read_back_aware. apply forallb_forall.
  intros [[ft url] cat] _. apply produced_items_aware.
Qed.

(** With a stored mapping that reads back aware, the loop over the
    entries of a feed either returns such a mapping or stops on a
    conversion that raises; it never raises [TypeError]. *)
Lemma process_entries_aware (now : Z) (feed_title category : string)
      (entries : list RawEntry) (m : dict) :
  all_aware m ->
  (exists m', process_entries (cutoff_of now) feed_title category entries m
              = Ok m' /\ all_aware m') \/
  process_entries (cutoff_of now) feed_title category entries m = Raise TimeError.
Proof.
  revert m. induction entries as [|e entries IH]; intros m Hm; simpl.
  - left. now exists m.
  - unfold process_entry.
    destruct (parse_entry e feed_title category) as [[item|]|y] eqn:Ep; simpl.
    + rewrite before_cutoff_instant. simpl.
      assert (Hitem : reads_back_aware item = true)
        by now apply (parse_entry_reads_back_aware e feed_title category).
      destruct (match incoming_instant item with
                | Some p => (p <? cutoff_instant now)%Z
                | None => false
                end); [now apply IH|].
      rewrite merge_item_pure by exact Hm. simpl.
      apply IH. now apply pmerge_aware.
    + now apply IH.
    + right. now apply parse_entry_Raise in Ep as [-> _].
Qed.

Lemma process_feeds_aware (now : Z) (fetch : string -> list RawEntry)
      (feeds : list Feed) (m : dict) :
  all_aware m ->
  (exists m', process_feeds (cutoff_of now) fetch feeds m = Ok m' /\
              all_aware m') \/
  process_feeds (cutoff_of now) fetch feeds m = Raise TimeError.
Proof.
  revert m. induction feeds as [|[[ft url] cat] feeds IH]; intros m Hm; simpl.
  - left. now exists m.
  - destruct (process_entries_aware now ft cat (fetch url) m Hm)
      as [[m1 [-> Hm1]] | ->]; simpl; [now apply IH | now right].
Qed.

(** The run never raises [TypeError], and every item it stores reads back
    aware: the tie-break of the merge never compares a naive with an
    aware value.  The run returns when no conversion raises. *)
Lemma aggregate_reads_back_aware (now : Z) (fetch : string -> list RawEntry)
      (feeds : list Feed) :
  ((exists all_items,
       aggregate now fetch feeds = Ok all_items /\
       forall k it, In (k, it) all_items -> reads_back_aware it = true) \/
   aggregate now fetch feeds = Raise TimeError) /\
  (feeds_convert fetch feeds = true ->
   exists all_items, aggregate now fetch feeds = Ok all_items).
Proof.
  assert (Hempty : all_aware []) by (intros k it []).
  split.
  - now apply process_feeds_aware.
  - intros Hconv. eexists. unfold aggregate.
    apply process_feeds_pure; trivial. apply feeds_always_read_back_aware.
Qed.

End Inverse.

(** ** The pipeline on the sample feeds *)

Module Run.
Import Fixture.

Example sample_run :
  aggregate (lib := lib) now sample_fetch sample_feeds = Ok sample_items.
Proof. vm_compute. reflexivity. Qed.

Example sample_output_order :
  map item_title (items_list (lib := lib) sample_items) = ["U"; "P2"; "R2"].
Proof. vm_compute. reflexivity. Qed.

Example sample_subscriptions :
  parse_opml (text := PyStr.ascii_text)
    (Some [mk_outline (Some "http://a/feed") (Some "Malware Analysis Blog") None;
           mk_outline None (Some "Folder") (Some "Folder");
           mk_outline (Some "http://a/feed") (Some "Duplicate") None;
           mk_outline (Some "http://b/feed") None (Some "CERT-EU");
           mk_outline (Some "http://c/feed") (Some "") None])
  = [("Malware Analysis Blog", "http://a/feed", "malware");
     ("CERT-EU", "http://b/feed", "gov_cert");
     ("http://c/feed", "http://c/feed", "general")].
Proof. vm_compute. reflexivity. Qed.

(** An older incoming item for a stored link is dropped. *)
Lemma merge_tie_break_witness :
  (known_ge (lib := lib)
            (item "P2" "http://e.com/p/" "B" "malware"
                  (Some "2024-02-20T00:00:00+00:00"))
            (item "P" "http://e.com/p" "A" "general"
                  (Some "2024-02-10T00:00:00+00:00")) = true) /\
  merge_item (lib := lib) sample_items
             (item "P" "http://e.com/p" "A" "general"
                   (Some "2024-02-10T00:00:00+00:00"))
             (pub_dt_of (lib := lib)
                        (item "P" "http://e.com/p" "A" "general"
                              (Some "2024-02-10T00:00:00+00:00")))
  = Ok sample_items.
Proof.
  destruct (merge_tie_break
              (lib := lib) sample_items
              (item "P" "http://e.com/p" "A" "general"
                    (Some "2024-02-10T00:00:00+00:00"))
              (item "P2" "http://e.com/p/" "B" "malware"
                    (Some "2024-02-20T00:00:00+00:00"))
              eq_refl eq_refl) as [_ [Hmerge _]].
  split; [reflexivity | exact Hmerge].
Defined.

(** The floats of the sample mapping keep the sign of the instants; an
    item dated before the epoch is written after the one without a date. *)
Example sample_positive_floats :
  positive_floats (lib := lib) sample_items = true /\
  map item_title (items_list (lib := lib) Cases.pre_epoch_items) = ["N"; "O"].
Proof. split; vm_compute; reflexivity. Qed.

Lemma writer_sorts_descending_witness : (-1000000 <= 0)%Z.
Proof.
  apply (proj2 (proj2 (proj2 (proj2 (proj2 (proj2 (proj2
           (writer_sorts_descending (lib := lib) Cases.pre_epoch_items)))))))
           eq_refl []
           (item "N" "http://e.com/n" "A" "general" None)
           [item "O" "http://e.com/o" "A" "general"
                 (Some "1969-12-31T23:59:59+00:00")]
           eq_refl eq_refl
           (item "O" "http://e.com/o" "A" "general"
                 (Some "1969-12-31T23:59:59+00:00"))
           (-1000000)%Z).
  - now left.
  - vm_compute. reflexivity.
Defined.


(** The sample feeds, run twice. *)
Lemma aggregate_twice_witness :
  (forall all_items,
      aggregate (lib := lib) now sample_fetch sample_feeds = Ok all_items ->
      process_feeds (lib := lib) (cutoff_of now) sample_fetch sample_feeds
                    all_items = Ok all_items) /\
  (feeds_convert (lib := lib) sample_fetch sample_feeds = true ->
   exists all_items,
     aggregate (lib := lib) now sample_fetch sample_feeds = Ok all_items /\
     process_feeds (lib := lib) (cutoff_of now) sample_fetch sample_feeds
                   all_items = Ok all_items).
Proof.
  apply (aggregate_twice (lib := lib) now sample_fetch sample_feeds).
  reflexivity.
Defined.

End Run.

(** * Further properties of the script *)

(** ** Strings, again *)

Lemma str_append_assoc (a b c : string) :
  ((a ++ b) ++ c)%string = (a ++ b ++ c)%string.
Proof.
  induction a as [|x a IH]; simpl; [reflexivity | now rewrite IH].
Qed.

Lemma slashes_plus (n m : nat) :
  (PyStr.slashes n ++ PyStr.slashes m)%string = PyStr.slashes (n + m).
Proof.
  induction n as [|n IH]; simpl; [reflexivity | now rewrite IH].
Qed.

Lemma rstrip_ignores_slashes (s : string) (n : nat) :
  PyStr.rstrip_slash (s ++ PyStr.slashes n) = PyStr.rstrip_slash s.
Proof.
  destruct (PyStrFacts.rstrip_decompose s) as [m Hs].
  rewrite Hs at 1. rewrite str_append_assoc, slashes_plus.
  apply PyStrFacts.rstrip_append_slashes, PyStrFacts.rstrip_no_trailing_slash.
Qed.

Lemma substring_of_trans (a b c : string) :
  PyStr.substring_of a b -> PyStr.substring_of b c -> PyStr.substring_of a c.
Proof.
  intros [p1 [q1 ->]] [p2 [q2 ->]].
  exists (p2 ++ p1)%string, (q1 ++ q2)%string.
  now rewrite !str_append_assoc.
Qed.

(** ** Which links share a key *)

(** X1. Two links are stored under the same key exactly when they are the
    same text followed by some number of slashes each; and stripping is
    idempotent. *)
Theorem same_key_iff_slashes_apart (l1 l2 : string) :
  (canonical_link l1 = canonical_link l2 <->
   exists s n1 n2,
     l1 = (s ++ PyStr.slashes n1)%string /\ l2 = (s ++ PyStr.slashes n2)%string) /\
  canonical_link (canonical_link l1) = canonical_link l1.
Proof.
  unfold canonical_link. split; [split|].
  - intros Heq.
    destruct (PyStrFacts.rstrip_decompose l1) as [n1 H1].
    destruct (PyStrFacts.rstrip_decompose l2) as [n2 H2].
    exists (PyStr.rstrip_slash l1), n1, n2. split; [exact H1|].
    rewrite Heq. exact H2.
  - intros [s [n1 [n2 [-> ->]]]]. now rewrite !rstrip_ignores_slashes.
  - apply PyStrFacts.rstrip_fixed, PyStrFacts.rstrip_no_trailing_slash.
Qed.

(** ** More on the classifier *)

Lemma scan_table_in_table (table : list (string * list string)) (t : string) :
  In (scan_table table t) ("general" :: map fst table).
Proof.
  induction table as [|[cat keywords] rest IH]; simpl; [now left|].
  destruct (any_keyword keywords t); [right; now left|].
  destruct IH as [H | H]; [now left | right; now right].
Qed.

Section LoaderMore.
Context {text : PyStr.Lower}.

Lemma guess_category_in_table (title : string) :
  In (guess_category_from_title title) (map fst CATEGORY_KEYWORDS).
Proof.
  destruct (scan_table_in_table CATEGORY_KEYWORDS (PyStr.lower title)) as [H | H];
    [|exact H].
  unfold guess_category_from_title. rewrite <- H. vm_compute. tauto.
Qed.

(** The first row that matches decides, whatever the table. *)
Lemma scan_table_at_most (table : list (string * list string)) (t : string)
      (i : nat) (row : string * list string) :
  nth_error table i = Some row -> row_matches t row ->
  exists j row', j <= i /\ nth_error table j = Some row' /\
                 fst row' = scan_table table t /\ row_matches t row'.
Proof.
  intros Hi Hm.
  destruct (scan_table_first_match table t)
    as [[i0 [row0 [Hn [Hc [Hm0 Hfirst]]]]] | [_ Hnone]].
  - exists i0, row0. repeat split; trivial.
    destruct (Nat.le_gt_cases i0 i) as [|Hgt]; trivial.
    exfalso. exact (Hfirst i row Hgt Hi Hm).
  - exfalso. apply (Hnone row); [eapply nth_error_In; eauto | exact Hm].
Qed.

(** X3. The keyword ["malware analysis"] never decides: a title in which
    it occurs also contains ["malware"], a keyword of an earlier row, so
    its category is not ["malware_analysis"]; a title gets that category
    only through the keyword ["reversing"]. *)
Theorem malware_analysis_keyword_shadowed (title : string) :
  (PyStr.substring_of "malware analysis" (PyStr.lower title) ->
   guess_category_from_title title <> "malware_analysis") /\
  (guess_category_from_title title = "malware_analysis" ->
   PyStr.substring_of "reversing" (PyStr.lower title) /\
   ~ PyStr.substring_of "malware" (PyStr.lower title)).
Proof.
  assert (Hmal : forall t, PyStr.substring_of "malware analysis" t ->
                           row_matches t ("malware", ["malware"; "ransomware"])).
  { intros t H. exists "malware". split; [now left|].
    apply (substring_of_trans _ "malware analysis"); [|exact H].
    now exists "", " analysis". }
  assert (Hrow : forall (row : string * list string) i,
             nth_error CATEGORY_KEYWORDS i = Some row ->
             fst row = "malware_analysis" ->
             i = 8 /\ row = ("malware_analysis", ["malware analysis"; "reversing"])).
  { intros row i Hn Hc.
    do 15 (destruct i as [|i];
           [simpl in Hn; injection Hn as <-;
            first [discriminate Hc | split; reflexivity]|]).
    destruct i; discriminate Hn. }
  unfold guess_category_from_title. split.
  - intros Hsub Heq.
    destruct (scan_table_at_most CATEGORY_KEYWORDS (PyStr.lower title) 6
                ("malware", ["malware"; "ransomware"]) eq_refl (Hmal _ Hsub))
      as [j [row' [Hle [Hn [Hc _]]]]].
    rewrite Heq in Hc.
    destruct (Hrow row' j Hn Hc) as [-> _]. lia.
  - intros Heq.
    destruct (scan_table_first_match CATEGORY_KEYWORDS (PyStr.lower title))
      as [[i [row [Hn [Hc [Hm Hfirst]]]]] | [Hg _]]; [|congruence].
    rewrite Heq in Hc.
    destruct (Hrow row i Hn Hc) as [-> ->].
    assert (Hno : ~ PyStr.substring_of "malware" (PyStr.lower title)).
    { intros H. apply (Hfirst 6 ("malware", ["malware"; "ransomware"]));
        [lia | reflexivity|]. exists "malware". split; [now left | exact H]. }
    split; [|exact Hno].
    destruct Hm as [k [[<- | [<- | []]] Hk]]; [|exact Hk].
    exfalso. apply Hno.
    apply (substring_of_trans _ "malware analysis"); [|exact Hk].
    now exists "", " analysis".
Qed.

(** ** More on the subscription loader *)

Lemma parse_opml_load (nodes : list Outline) :
  parse_opml (Some nodes) = load nodes.
Proof.
  unfold parse_opml, load. rewrite opml_loop_spec. simpl.
  f_equal. apply forallb_filter_id. apply forallb_forall. reflexivity.
Qed.

Lemma keep_first_incl (nodes : list Outline) (o : Outline) :
  In o (keep_first_by_url nodes) -> In o nodes.
Proof.
  induction nodes as [|x rest IH]; simpl; [trivial|].
  intros [<- | Hin]; [now left|]. right. apply IH.
  now apply filter_In in Hin.
Qed.

Lemma keep_first_length (nodes : list Outline) :
  List.length (keep_first_by_url nodes) <= List.length nodes.
Proof.
  induction nodes as [|x rest IH]; simpl; [lia|].
  pose proof (filter_length_le
                (fun o' => negb (String.eqb (feed_url_of o') (feed_url_of x)))
                (keep_first_by_url rest)).
  lia.
Qed.

(** X4. Every subscription [parse_opml] returns has a non-empty URL, a
    non-empty title and a category of the table; there are no more
    subscriptions than outline nodes; and a node with a URL but neither
    title nor text is titled by its URL and classified ["general"],
    whatever the URL contains. *)
Theorem subscriptions_well_formed (body : option (list Outline)) :
  (forall title url cat,
      In (title, url, cat) (parse_opml body) ->
      PyStr.nonempty url = true /\ PyStr.nonempty title = true /\
      In cat (map fst CATEGORY_KEYWORDS)) /\
  List.length (parse_opml body)
  <= match body with
     | Some nodes => List.length nodes
     | None => 0
     end /\
  (forall o,
      has_feed_url o = true -> title_or_text o = None ->
      parse_opml (Some [o]) = [(feed_url_of o, feed_url_of o, "general")]).
Proof.
  split; [|split].
  - intros title url cat Hin. destruct body as [nodes|]; [|destruct Hin].
    rewrite parse_opml_load in Hin. unfold load in Hin.
    apply in_map_iff in Hin as [o [Heq Hin]].
    apply keep_first_incl, filter_In in Hin as [_ Hurl].
    unfold subscription_of in Heq. injection Heq as <- <- <-.
    split; [exact Hurl|]. split; [|apply guess_category_in_table].
    unfold display_title. destruct (title_or_text o) as [t|] eqn:E;
      [now apply (title_or_text_nonempty o) | exact Hurl].
  - destruct body as [nodes|]; [|simpl; lia].
    rewrite parse_opml_load. unfold load. rewrite length_map.
    pose proof (keep_first_length (filter has_feed_url nodes)).
    pose proof (filter_length_le has_feed_url nodes). lia.
  - intros o Hurl Hnone. rewrite parse_opml_load. unfold load. simpl.
    rewrite Hurl. simpl. unfold subscription_of, display_title.
    rewrite Hnone. simpl. unfold guess_category_from_title.
    rewrite PyStr.lower_empty. reflexivity.
Qed.

End LoaderMore.

(** ** More on the entry normalizer *)

Section NormalizerMore.
Context {lib : TimeLib}.



End NormalizerMore.

(** ** More on the mapping *)

Lemma dict_set_absent (k : string) (v : NewsItem) (d : dict) :
  dict_get k d = None -> dict_set k v d = d ++ [(k, v)].
Proof.
  induction d as [|[k' v'] d IH]; simpl; [reflexivity|].
  destruct (String.eqb k k'); [discriminate|]. intros H. now rewrite IH.
Qed.

Lemma dict_set_last (k : string) (v v' : NewsItem) (d : dict) :
  dict_get k d = None -> dict_set k v' (d ++ [(k, v)]) = d ++ [(k, v')].
Proof.
  induction d as [|[k0 v0] d IH]; simpl.
  - intros _. now rewrite String.eqb_refl.
  - destruct (String.eqb k k0); [discriminate|]. intros H. now rewrite IH.
Qed.

Lemma dict_get_last (k : string) (v : NewsItem) (d : dict) :
  dict_get k d = None -> dict_get k (d ++ [(k, v)]) = Some v.
Proof.
  intros H. rewrite <- (dict_set_absent k v d H). apply dict_get_set_same.
Qed.

Lemma dict_In_get (k : string) (v : NewsItem) (d : dict) :
  NoDup (dict_keys d) -> In (k, v) d -> dict_get k d = Some v.
Proof.
  induction d as [|[k0 v0] d IH]; simpl; [intros _ []|].
  intros Hnd Hin. inversion Hnd as [|? ? Hnotin Hnd']; subst.
  destruct Hin as [Heq | Hin].
  - injection Heq as -> ->. now rewrite String.eqb_refl.
  - destruct (String.eqb k k0) eqn:E; [|now apply IH].
    apply String.eqb_eq in E. subst k0. exfalso. apply Hnotin.
    change k with (fst (k, v)). now apply in_map.
Qed.

(** ** More on one step of the aggregation *)

Section StepMore.
Context {lib : TimeLib}.

Lemma pub_dt_of_None_existing (item : NewsItem) :
  pub_dt_of item = None -> existing_dt_of item = None.
Proof.
  unfold pub_dt_of, existing_dt_of.
  destruct (item_published item) as [s|]; [|reflexivity].
  destruct (PyStr.nonempty s); [|reflexivity].
  destruct (fromisoformat s) as [d|]; [|reflexivity].
  destruct (tzinfo d); discriminate.
Qed.

Lemma not_newer_raises (existing_dt pub_dt : option datetime) (e : exn) :
  not_newer existing_dt pub_dt = Raise e <->
  e = TypeError /\
  exists d p, existing_dt = Some d /\ pub_dt = Some p /\
              (tzinfo d = None <-> tzinfo p <> None).
Proof.
  unfold not_newer, dt_le, dt_compare.
  destruct existing_dt as [d|]; [destruct pub_dt as [p|]|].
  - destruct (tzinfo p) as [op|] eqn:Ep; destruct (tzinfo d) as [od|] eqn:Ed; simpl.
    + split; [discriminate|]. intros [_ [d' [p' [Hd [Hp [_ H]]]]]].
      injection Hd as <-. injection Hp as <-. rewrite Ep, Ed in H.
      assert (Hne : Some op <> None) by discriminate. specialize (H Hne). discriminate.
    + split.
      * intros H. injection H as <-. split; [reflexivity|].
        exists d, p. rewrite Ep, Ed. repeat split; trivial. discriminate.
      * now intros [-> _].
    + split.
      * intros H. injection H as <-. split; [reflexivity|].
        exists d, p. rewrite Ep, Ed.
        repeat split; trivial; [discriminate | intros H; now contradiction H].
      * now intros [-> _].
    + split; [discriminate|]. intros [_ [d' [p' [Hd [Hp [H _]]]]]].
      injection Hd as <-. injection Hp as <-. rewrite Ep, Ed in H.
      now contradiction (H eq_refl).
  - split; [discriminate | intros [_ [d' [p' [_ [H _]]]]]; discriminate].
  - split; [discriminate | intros [_ [d' [p' [H _]]]]; discriminate].
Qed.

Lemma result_cases {A : Type} (r : result A) :
  (exists a, r = Ok a) \/ r = Raise TimeError \/ r = Raise TypeError.
Proof.
  destruct r as [a|[|]]; [left; now exists a | right; now right | right; now left].
Qed.

(** The filter and the merge, for an item [parse_entry] returned. *)
Lemma item_step_raises (now : Z) (all_items : dict) (item : NewsItem) (e : exn) :
  (old <- before_cutoff (pub_dt_of item) (cutoff_of now) ;;
   if old then Ok all_items else merge_item all_items item (pub_dt_of item))
  = Raise e <->
  e = TypeError /\
  exists existing d p,
    incoming_instant item = Some p /\ (cutoff_instant now <= p)%Z /\
    dict_get (canonical_link (item_link item)) all_items = Some existing /\
    existing_dt_of existing = Some d /\ tzinfo d = None.
Proof.
  rewrite before_cutoff_instant. simpl. unfold merge_item.
  destruct (incoming_instant item) as [p|] eqn:Ep.
  - destruct (p <? cutoff_instant now)%Z eqn:Elt.
    + apply Z.ltb_lt in Elt. split; [discriminate|].
      intros [_ [x [d [q [Hq [Hle _]]]]]]. injection Hq as <-. lia.
    + apply Z.ltb_ge in Elt.
      destruct (dict_get _ all_items) as [existing|] eqn:G.
      * destruct (pub_dt_of item) as [pd|] eqn:Epd;
          [|unfold incoming_instant in Ep; rewrite Epd in Ep; discriminate].
        destruct (pub_dt_of_aware item pd Epd) as [ip Hip].
        assert (Hpd : tzinfo pd <> None).
        { unfold instant in Hip. destruct (tzinfo pd); [discriminate | discriminate Hip]. }
        destruct (not_newer (existing_dt_of existing) (Some pd)) as [b|e'] eqn:En.
        -- simpl. split; [destruct b; discriminate|].
           intros [_ [x [d [q [_ [_ [Hx [Hd Htz]]]]]]]].
           injection Hx as <-.
           assert (Hr : not_newer (existing_dt_of existing) (Some pd) = Raise TypeError).
           { apply not_newer_raises. split; [reflexivity|].
             exists d, pd. repeat split; auto. }
           congruence.
        -- simpl. apply not_newer_raises in En as [-> [d [pd' [Hd [Hp Htz]]]]].
           injection Hp as <-. split.
           ++ intros H. injection H as <-. split; [reflexivity|].
              exists existing, d, p. repeat split; trivial. now apply Htz.
           ++ now intros [-> _].
      * split; [discriminate|].
        intros [_ [x [d [q [_ [_ [Hx _]]]]]]]. discriminate.
  - assert (Hnone : pub_dt_of item = None) by now apply incoming_instant_None.
    rewrite Hnone.
    assert (Hok : forall x, not_newer x None = Ok false)
      by (intros [x|]; reflexivity).
    split.
    + destruct (dict_get _ all_items) as [existing|]; [|discriminate].
      rewrite Hok. discriminate.
    + intros [_ [x [d [q [Hq _]]]]]. discriminate.
Qed.

(** X6. One iteration of the entry loop raises in exactly two situations,
    and returns a mapping in every other.  It raises what the time
    conversion raises when the entry has a title and a link and its
    structured time ([published_parsed], else [updated_parsed]) does not
    convert.  It raises [TypeError] when the entry normalizes to a dated
    item that passes the recency filter, its key is already in the
    mapping, and the stored [published] parses to a datetime without a
    zone. *)
Theorem process_entry_raises_iff
        (now : Z) (feed_title category : string) (all_items : dict)
        (entry : RawEntry) :
  (process_entry (cutoff_of now) feed_title category all_items entry
   = Raise TimeError <->
   has_title entry = true /\ has_link entry = true /\
   time_converts entry = false) /\
  (process_entry (cutoff_of now) feed_title category all_items entry
   = Raise TypeError <->
   exists item existing d p,
     parse_entry entry feed_title category = Ok (Some item) /\
     incoming_instant item = Some p /\ (cutoff_instant now <= p)%Z /\
     dict_get (canonical_link (item_link item)) all_items = Some existing /\
     existing_dt_of existing = Some d /\ tzinfo d = None) /\
  ((exists all_items',
       process_entry (cutoff_of now) feed_title category all_items entry
       = Ok all_items') \/
   process_entry (cutoff_of now) feed_title category all_items entry
   = Raise TimeError \/
   process_entry (cutoff_of now) feed_title category all_items entry
   = Raise TypeError).
Proof.
  unfold process_entry.
  destruct (parse_entry entry feed_title category) as [[item|]|x] eqn:Ep;
    cbn [bind].
  - pose proof (item_step_raises now all_items item) as Hstep.
    split; [|split].
    + split.
      * intros H. apply Hstep in H as [H _]. discriminate.
      * intros [_ [_ Hc]].
        assert (Hr : parse_entry entry feed_title category = Raise TimeError)
          by (apply parse_entry_Raise; apply parse_entry_Some in Ep as [Ht [Hl _]];
              now repeat split).
        congruence.
    + split.
      * intros H. apply Hstep in H as [_ [existing [d [p H]]]].
        now exists item, existing, d, p.
      * intros [i [existing [d [p [Hi H]]]]]. injection Hi as <-.
        apply Hstep. split; [reflexivity|]. now exists existing, d, p.
    + apply result_cases.
  - split; [|split].
    + split; [discriminate|]. intros [Ht [Hl _]].
      apply parse_entry_None in Ep as [H | H]; congruence.
    + split; [discriminate | intros [i [x [d [p [H _]]]]]; discriminate].
    + left. now exists all_items.
  - apply parse_entry_Raise in Ep as [-> [Ht [Hl Hc]]]. split; [|split].
    + split; [now intros _ | reflexivity].
    + split; [discriminate | intros [i [x [d [p [H _]]]]]; discriminate].
    + right. now left.
Qed.

(** X7. The recency filter is strict: an entry whose item is dated at the
    cutoff or later and whose key is not in the mapping is stored, as the
    last pair of the mapping. *)
Theorem item_at_cutoff_is_appended
        (now : Z) (feed_title category : string) (all_items : dict)
        (entry : RawEntry) (item : NewsItem) (p : Z) :
  parse_entry entry feed_title category = Ok (Some item) ->
  incoming_instant item = Some p ->
  (cutoff_instant now <= p)%Z ->
  dict_get (canonical_link (item_link item)) all_items = None ->
  process_entry (cutoff_of now) feed_title category all_items entry
  = Ok (all_items ++ [(canonical_link (item_link item), item)]).
Proof.
  intros Hparse Hp Hle Hget. unfold process_entry.
  rewrite Hparse. cbn [bind]. rewrite before_cutoff_instant, Hp. simpl.
  apply Z.ltb_ge in Hle. rewrite Hle. unfold merge_item. rewrite Hget.
  now rewrite dict_set_absent.
Qed.

(** X8. The merge depends on the order of arrival: of two items for one
    link that is not yet in the mapping, one of them without a usable
    date, the one merged second is the one stored. *)
Theorem undated_pair_last_one_stays (all_items : dict) (a u : NewsItem) :
  canonical_link (item_link a) = canonical_link (item_link u) ->
  dict_get (canonical_link (item_link u)) all_items = None ->
  pub_dt_of u = None ->
  (m <- merge_item all_items a (pub_dt_of a) ;; merge_item m u (pub_dt_of u))
  = Ok (all_items ++ [(canonical_link (item_link u), u)]) /\
  (m <- merge_item all_items u (pub_dt_of u) ;; merge_item m a (pub_dt_of a))
  = Ok (all_items ++ [(canonical_link (item_link u), a)]).
Proof.
  intros Hkey Hget Hu.
  assert (Hok : forall x, not_newer x None = Ok false)
    by (intros [x|]; reflexivity).
  unfold merge_item. rewrite Hkey, Hget. cbn [bind]. split.
  - rewrite (dict_set_absent _ a _ Hget), (dict_get_last _ a _ Hget).
    cbv beta iota zeta. rewrite Hu, Hok. cbn [bind].
    now rewrite (dict_set_last _ a u _ Hget).
  - rewrite (dict_set_absent _ u _ Hget), (dict_get_last _ u _ Hget).
    cbv beta iota zeta. rewrite (pub_dt_of_None_existing u Hu).
    cbn [bind not_newer]. now rewrite (dict_set_last _ u a _ Hget).
Qed.

End StepMore.

(** ** More on the whole run *)

Section RunMore.
Context {lib : TimeLib} {text : PyStr.Lower}.

Lemma process_entry_keys (cutoff : datetime) (feed_title category : string)
      (m m' : dict) (entry : RawEntry) :
  process_entry cutoff feed_title category m entry = Ok m' ->
  (exists added, dict_keys m' = dict_keys m ++ added) /\
  (NoDup (dict_keys m) -> NoDup (dict_keys m')).
Proof.
  intros H.
  destruct (process_entry_cases _ _ _ _ _ _ H) as [-> | [item [_ [_ ->]]]].
  - split; [exists []; now rewrite app_nil_r | trivial].
  - split; [|apply dict_keys_set_NoDup].
    rewrite dict_keys_set. destruct (dict_get _ m).
    + exists []. now rewrite app_nil_r.
    + now eexists.
Qed.

Lemma process_entries_keys (cutoff : datetime) (feed_title category : string)
      (entries : list RawEntry) (m m' : dict) :
  process_entries cutoff feed_title category entries m = Ok m' ->
  (exists added, dict_keys m' = dict_keys m ++ added) /\
  (NoDup (dict_keys m) -> NoDup (dict_keys m')).
Proof.
  revert m. induction entries as [|e entries IH]; intros m; simpl.
  - intros H. injection H as <-. split; [exists []; now rewrite app_nil_r | trivial].
  - destruct (process_entry cutoff feed_title category m e) as [m1|] eqn:E;
      simpl; [|discriminate].
    intros H. destruct (process_entry_keys _ _ _ _ _ _ E) as [[a1 H1] N1].
    destruct (IH m1 H) as [[a2 H2] N2]. split; [|auto].
    exists (a1 ++ a2). now rewrite H2, H1, app_assoc.
Qed.

Lemma process_feeds_keys (cutoff : datetime) (fetch : string -> list RawEntry)
      (feeds : list Feed) (m m' : dict) :
  process_feeds cutoff fetch feeds m = Ok m' ->
  (exists added, dict_keys m' = dict_keys m ++ added) /\
  (NoDup (dict_keys m) -> NoDup (dict_keys m')).
Proof.
  revert m. induction feeds as [|[[ft url] cat] feeds IH]; intros m; simpl.
  - intros H. injection H as <-. split; [exists []; now rewrite app_nil_r | trivial].
  - destruct (process_entries cutoff ft cat (fetch url) m) as [m1|] eqn:E;
      simpl; [|discriminate].
    intros H. destruct (process_entries_keys _ _ _ _ _ _ E) as [[a1 H1] N1].
    destruct (IH m1 H) as [[a2 H2] N2]. split; [|auto].
    exists (a1 ++ a2). now rewrite H2, H1, app_assoc.
Qed.

(** X9. Processing feeds never removes or reorders the links already in
    the mapping: the keys afterwards are the keys before, in the same
    order, followed by the links that are new; no key occurs twice. *)
Theorem keys_only_grow (cutoff : datetime) (fetch : string -> list RawEntry)
        (feeds : list Feed) (all_items all_items' : dict) :
  NoDup (dict_keys all_items) ->
  process_feeds cutoff fetch feeds all_items = Ok all_items' ->
  NoDup (dict_keys all_items') /\
  exists added, dict_keys all_items' = dict_keys all_items ++ added.
Proof.
  intros Hnd H. destruct (process_feeds_keys _ _ _ _ _ H) as [Hadd Hkeep].
  split; [now apply Hkeep | exact Hadd].
Qed.

Lemma process_entries_from (cutoff : datetime) (feed_title category : string)
      (entries : list RawEntry) (m m' : dict) :
  process_entries cutoff feed_title category entries m = Ok m' ->
  forall k it,
    In (k, it) m' ->
    In (k, it) m \/
    exists entry, In entry entries /\
                  parse_entry entry feed_title category = Ok (Some it).
Proof.
  revert m. induction entries as [|e entries IH]; intros m; simpl.
  - intros H. injection H as <-. now left.
  - destruct (process_entry cutoff feed_title category m e) as [m1|] eqn:E;
      simpl; [|discriminate].
    intros H k it Hin. destruct (IH m1 H k it Hin) as [Hin1 | [e' [He' Hp]]].
    + destruct (process_entry_cases _ _ _ _ _ _ E) as [-> | [item [Hp [_ ->]]]];
        [now left|].
      apply dict_set_In in Hin1 as [Heq | Hin1]; [|now left].
      injection Heq as -> ->. right. exists e. split; [now left | exact Hp].
    + right. exists e'. split; [now right | exact Hp].
Qed.

Lemma process_feeds_from (cutoff : datetime) (fetch : string -> list RawEntry)
      (feeds : list Feed) (m m' : dict) :
  process_feeds cutoff fetch feeds m = Ok m' ->
  forall k it, In (k, it) m' -> In (k, it) m \/ delivers fetch feeds it.
Proof.
  revert m. induction feeds as [|[[ft url] cat] feeds IH]; intros m; simpl.
  - intros H. injection H as <-. now left.
  - destruct (process_entries cutoff ft cat (fetch url) m) as [m1|] eqn:E;
      simpl; [|discriminate].
    intros H k it Hin. destruct (IH m1 H k it Hin) as [Hin1 | Hd].
    + destruct (process_entries_from _ _ _ _ _ _ E k it Hin1)
        as [Hm | [e [He Hp]]]; [now left|].
      right. exists ft, url, cat, e. repeat split; trivial. now left.
    + right. destruct Hd as [ft' [url' [cat' [e [Hf [He Hp]]]]]].
      exists ft', url', cat', e. repeat split; trivial. now right.
Qed.

Lemma parse_entry_source (entry : RawEntry) (feed_title category : string)
      (it : NewsItem) :
  parse_entry entry feed_title category = Ok (Some it) ->
  item_source it = feed_title /\ item_category it = category.
Proof.
  intros H. apply parse_entry_Some in H as [_ [_ [published [_ ->]]]].
  now split.
Qed.

(** X10. Every item of the final mapping comes from a subscribed feed: it
    is what [parse_entry] makes of an entry that feed returned, and its
    [source] and [category] are that feed's title and category. *)
Theorem stored_items_come_from_feeds
        (now : Z) (fetch : string -> list RawEntry) (feeds : list Feed)
        (all_items : dict) (k : string) (it : NewsItem) :
  aggregate now fetch feeds = Ok all_items ->
  In (k, it) all_items ->
  exists feed_title xml_url category entry,
    In (feed_title, xml_url, category) feeds /\
    In entry (fetch xml_url) /\
    parse_entry entry feed_title category = Ok (Some it) /\
    item_source it = feed_title /\ item_category it = category.
Proof.
  intros Hrun Hin. unfold aggregate in Hrun.
  destruct (process_feeds_from _ _ _ _ _ Hrun k it Hin)
    as [[] | [ft [url [cat [e [Hf [He Hp]]]]]]].
  exists ft, url, cat, e. repeat split; trivial;
    now apply (parse_entry_source e ft cat).
Qed.

Lemma aggregate_keys (now : Z) (fetch : string -> list RawEntry)
      (feeds : list Feed) (m : dict) :
  aggregate now fetch feeds = Ok m ->
  NoDup (dict_keys m) /\
  map (fun it => canonical_link (item_link it)) (dict_values m) = dict_keys m.
Proof.
  intros Hrun. split.
  - apply (process_feeds_keys _ _ _ _ _ Hrun). constructor.
  - assert (Hinv : forall k it, In (k, it) m -> k = canonical_link (item_link it)).
    { unfold aggregate in Hrun.
      apply (process_feeds_invariant
               (fun k it => k = canonical_link (item_link it))
               (cutoff_of now) fetch
               (fun _ _ _ _ _ _ => eq_refl) feeds [] m); trivial.
      intros k it []. }
    unfold dict_values, dict_keys. rewrite map_map.
    apply map_ext_in. intros [k it] Hin. simpl. symmetry. now apply Hinv.
Qed.

(** X11. In the snapshot [main] builds, no two items have links with the
    same canonical form, [total_items] is the number of items and of keys
    of the mapping, and [days_back] is the window of the filter. *)
Theorem snapshot_one_item_per_link
        (now written : Z) (body : option (list Outline))
        (fetch : string -> list RawEntry) (snap : Snapshot) :
  build now written body fetch = Ok snap ->
  NoDup (map (fun it => canonical_link (item_link it)) (items snap)) /\
  total_items snap = List.length (items snap) /\
  (exists all_items,
      aggregate now fetch (parse_opml body) = Ok all_items /\
      total_items snap = List.length (dict_keys all_items) /\
      Permutation (items snap) (dict_values all_items)) /\
  cutoff_instant now = (now - days_back snap * 86400000000)%Z.
Proof.
  unfold build.
  destruct (aggregate now fetch (parse_opml body)) as [m|] eqn:Hrun;
    simpl; [|discriminate].
  intros H. injection H as <-. simpl.
  destruct (aggregate_keys _ _ _ _ Hrun) as [Hnd Hkeys].
  pose proof (sort_desc_perm sort_key (dict_values m)) as Hperm.
  repeat split.
  - apply (Permutation_NoDup
             (Permutation_map _ (Permutation_sym Hperm))).
    now rewrite Hkeys.
  - exists m. repeat split; trivial.
    rewrite (Permutation_length Hperm). unfold dict_values, dict_keys.
    now rewrite !length_map.
Qed.

End RunMore.

(** ** Which item a link ends up with *)

Section LatestWins.
Context {lib : TimeLib}.

Lemma In_all_offers (now : Z) (fetch : string -> list RawEntry)
      (feeds : list Feed) (x : NewsItem) :
  In x (all_offers now fetch feeds) <->
  delivers fetch feeds x /\ admitted now x = true.
Proof.
  unfold all_offers, offers, produced_items, delivers.
  rewrite in_flat_map. split.
  - intros [[[ft url] cat] [Hf Hin]]. apply filter_In in Hin as [Hin Hadm].
    apply in_flat_map in Hin as [e [He Hin]].
    destruct (parse_entry e ft cat) as [[it|]|y] eqn:Hp;
      [|destruct Hin|destruct Hin].
    destruct Hin as [<- | []]. split; [|exact Hadm].
    now exists ft, url, cat, e.
  - intros [[ft [url [cat [e [Hf [He Hp]]]]]] Hadm].
    exists (ft, url, cat). split; [exact Hf|].
    apply filter_In. split; [|exact Hadm].
    apply in_flat_map. exists e. split; [exact He|]. rewrite Hp. now left.
Qed.

Lemma fold_trans_latest (ys : list NewsItem) (r : NewsItem) :
  (forall y, In y ys -> reads_back_aware y = true /\ incoming_instant y <> None) ->
  fold_left trans ys None = Some r ->
  In r ys /\ exists er, existing_instant r = Some er /\ bounded er ys.
Proof.
  intros Hys Hfold. destruct ys as [|y ys]; [discriminate|].
  cbn [fold_left trans] in Hfold.
  destruct (Hys y (or_introl eq_refl)) as [Hy Hknown].
  destruct (incoming_instant y) as [p|] eqn:Ep; [|congruence].
  assert (Hye : existing_instant y = Some p).
  { destruct (existing_instant_aware y Hy) as [_ [-> _]]. exact Ep. }
  destruct (fold_trans_max ys (fun z Hz => Hys z (or_intror Hz)) y p Hye)
    as [r' [er [Hf [Hr [Hge Hb]]]]].
  rewrite Hf in Hfold. injection Hfold as <-. split.
  - clear -Hf. revert y Hf. induction ys as [|z ys IH]; intros y Hf.
    + injection Hf as <-. now left.
    + cbn [fold_left trans] in Hf. destruct (known_ge y z).
      * destruct (IH y Hf) as [<- | Hin]; [now left | right; now right].
      * destruct (IH z Hf) as [<- | Hin]; [right; now left | right; now right].
  - exists er. split; [exact Hr|].
    intros z [<- | Hz]; [exists p; now split | now apply Hb].
Qed.

Lemma stored_is_latest_dated
        (now : Z) (fetch : string -> list RawEntry) (feeds : list Feed)
        (all_items : dict) (k : string) (it : NewsItem) :
  feeds_read_back_aware fetch feeds = true ->
  aggregate now fetch feeds = Ok all_items ->
  In (k, it) all_items ->
  (forall x, delivers fetch feeds x -> key_of x = k ->
             incoming_instant x <> None) ->
  delivers fetch feeds it /\ key_of it = k /\
  exists e,
    incoming_instant it = Some e /\
    forall x p, delivers fetch feeds x -> key_of x = k ->
                incoming_instant x = Some p -> (p <= e)%Z.
Proof.
  intros Haware Hrun Hin Hdated.
  assert (Hempty : all_aware []) by (intros k' it' []).
  unfold aggregate in Hrun.
  rewrite (process_feeds_pure now fetch feeds [] Hempty
             (process_feeds_Ok_convert _ _ _ _ _ Hrun) Haware) in Hrun.
  injection Hrun as <-.
  pose proof (all_offers_aware now fetch feeds Haware) as Hoffers.
  rewrite forallb_forall in Hoffers.
  assert (Hget : dict_get k (fold_left pmerge (all_offers now fetch feeds) [])
                 = Some it).
  { apply dict_In_get; [|exact Hin]. apply dict_keys_fold_NoDup. constructor. }
  rewrite dict_get_fold_pmerge in Hget. simpl in Hget.
  set (ys := filter (fun x => String.eqb (key_of x) k)
                    (all_offers now fetch feeds)) in *.
  assert (Hys : forall y, In y ys ->
                          In y (all_offers now fetch feeds) /\ key_of y = k).
  { intros y Hy. apply filter_In in Hy as [Hy Hk].
    split; [exact Hy | now apply String.eqb_eq]. }
  assert (Hknown : forall y, In y ys ->
             reads_back_aware y = true /\ incoming_instant y <> None).
  { intros y Hy. destruct (Hys y Hy) as [Hoff Hk]. split; [now apply Hoffers|].
    apply Hdated; [|exact Hk]. now apply (In_all_offers now fetch feeds y). }
  destruct (fold_trans_latest ys it Hknown Hget) as [Hit [er [Her Hb]]].
  destruct (Hys it Hit) as [Hoff Hk].
  apply In_all_offers in Hoff as [Hdel Hadm].
  assert (Hinc : incoming_instant it = Some er).
  { destruct (existing_instant_aware it (proj1 (Hknown it Hit))) as [_ [<- _]].
    exact Her. }
  split; [exact Hdel|]. split; [exact Hk|]. exists er. split; [exact Hinc|].
  intros x p Hx Hxk Hp.
  destruct (admitted now x) eqn:Hax.
  - assert (Hxin : In x ys).
    { apply filter_In. split; [|now apply String.eqb_eq].
      now apply In_all_offers. }
    destruct (Hb x Hxin) as [p' [Hp' Hle]]. congruence.
  - unfold admitted in Hax, Hadm. rewrite Hp in Hax. rewrite Hinc in Hadm.
    apply negb_false_iff, Z.ltb_lt in Hax.
    apply negb_true_iff, Z.ltb_ge in Hadm. lia.
Qed.

(** X12. The latest version of a link wins when all its versions are
    dated: if every item the feeds deliver for a link has a timestamp,
    the item stored under that link is one of the delivered ones and no
    delivered item for the link has a later timestamp. *)
Theorem latest_dated_item_is_stored
        (now : Z) (fetch : string -> list RawEntry) (feeds : list Feed)
        (all_items : dict) (k : string) (it : NewsItem) :
  feeds_read_back_aware fetch feeds = true ->
  aggregate now fetch feeds = Ok all_items ->
  In (k, it) all_items ->
  (forall x, delivers fetch feeds x -> key_of x = k ->
             incoming_instant x <> None) ->
  delivers fetch feeds it /\ key_of it = k /\
  exists e,
    incoming_instant it = Some e /\
    forall x p, delivers fetch feeds x -> key_of x = k ->
                incoming_instant x = Some p -> (p <= e)%Z.
Proof.
  apply stored_is_latest_dated.
Qed.

Lemma delivers_perm (fetch : string -> list RawEntry) (feeds feeds' : list Feed)
      (x : NewsItem) :
  Permutation feeds feeds' -> delivers fetch feeds x -> delivers fetch feeds' x.
Proof.
  intros Hperm [ft [url [cat [e [Hf [He Hp]]]]]].
  exists ft, url, cat, e. repeat split; trivial.
  now apply (Permutation_in _ Hperm).
Qed.

Lemma feeds_read_back_aware_perm (fetch : string -> list RawEntry)
      (feeds feeds' : list Feed) :
  Permutation feeds feeds' ->
  feeds_read_back_aware fetch feeds = true ->
  feeds_read_back_aware fetch feeds' = true.
Proof.
  unfold feeds_read_back_aware. rewrite !forallb_forall.
  intros Hperm H f Hf. apply H.
  now apply (Permutation_in _ (Permutation_sym Hperm)).
Qed.

(** X13. For a link all of whose versions are dated, with no two versions
    at the same instant, the order in which the feeds are processed does
    not matter: every order of the feeds stores the same item. *)
Theorem dated_link_ignores_feed_order
        (now : Z) (fetch : string -> list RawEntry) (feeds feeds' : list Feed)
        (all_items all_items' : dict) (k : string) (it it' : NewsItem) :
  feeds_read_back_aware fetch feeds = true ->
  Permutation feeds feeds' ->
  aggregate now fetch feeds = Ok all_items ->
  aggregate now fetch feeds' = Ok all_items' ->
  In (k, it) all_items ->
  In (k, it') all_items' ->
  (forall x, delivers fetch feeds x -> key_of x = k ->
             incoming_instant x <> None) ->
  (forall x y, delivers fetch feeds x -> delivers fetch feeds y ->
               key_of x = k -> key_of y = k ->
               incoming_instant x = incoming_instant y -> x = y) ->
  it = it'.
Proof.
  intros Haware Hperm Hrun Hrun' Hin Hin' Hdated Huniq.
  destruct (stored_is_latest_dated now fetch feeds all_items k it
              Haware Hrun Hin Hdated) as [Hd [Hk [e [He Hmax]]]].
  assert (Hdated' : forall x, delivers fetch feeds' x -> key_of x = k ->
                              incoming_instant x <> None).
  { intros x Hx. apply Hdated.
    now apply (delivers_perm fetch feeds' feeds x (Permutation_sym Hperm)). }
  destruct (stored_is_latest_dated now fetch feeds' all_items' k it'
              (feeds_read_back_aware_perm fetch feeds feeds' Hperm Haware)
              Hrun' Hin' Hdated') as [Hd' [Hk' [e' [He' Hmax']]]].
  apply (delivers_perm fetch feeds' feeds it' (Permutation_sym Hperm)) in Hd'.
  apply Huniq; trivial. rewrite He, He'. f_equal.
  pose proof (Hmax it' e' Hd' Hk' He').
  pose proof (Hmax' it e (delivers_perm fetch feeds feeds' it Hperm Hd) Hk He).
  lia.
Qed.

End LatestWins.

(** ** More on the writer *)

Lemma insert_desc_filter (key : NewsItem -> Z) (c : Z) (x : NewsItem)
      (l : list NewsItem) :
  filter (fun it => (key it =? c)%Z) (insert_desc key x l) =
  filter (fun it => (key it =? c)%Z) (x :: l).
Proof.
  induction l as [|y r IH]; [reflexivity|].
  cbn [insert_desc]. destruct (key x <? key y)%Z eqn:E; [|reflexivity].
  apply Z.ltb_lt in E. cbn [filter] in *. rewrite IH.
  destruct (key x =? c)%Z eqn:Ex; [|reflexivity].
  apply Z.eqb_eq in Ex.
  assert (Hy : (key y =? c)%Z = false) by (apply Z.eqb_neq; lia).
  now rewrite Hy.
Qed.

Lemma sort_desc_filter (key : NewsItem -> Z) (c : Z) (l : list NewsItem) :
  filter (fun it => (key it =? c)%Z) (sort_desc key l) =
  filter (fun it => (key it =? c)%Z) l.
Proof.
  induction l as [|x r IH]; [reflexivity|].
  cbn [sort_desc]. rewrite insert_desc_filter. cbn [filter]. now rewrite IH.
Qed.

Section WriterMore.
Context {lib : TimeLib}.

Lemma ordered_floats_In (all_items : dict) (x y : NewsItem) (a b : Z) :
  ordered_floats all_items = true ->
  In x (dict_values all_items) -> In y (dict_values all_items) ->
  existing_instant x = Some a -> existing_instant y = Some b ->
  (a <= b)%Z -> (total_seconds a <= total_seconds b)%Z.
Proof.
  unfold ordered_floats. rewrite forallb_forall. intros H Hx Hy Ha Hb Hle.
  specialize (H x Hx). rewrite forallb_forall in H. specialize (H y Hy).
  rewrite Ha, Hb in H. apply Z.leb_le in Hle. rewrite Hle in H. simpl in H.
  now apply Z.leb_le.
Qed.

(** X14. Dated items are written in descending order of the float of
    their instant, whatever zone each [published] string is written in.
    The float not decreasing when the instant grows, a more recent item
    comes after an older one only when both instants have the same
    float. *)
Theorem snapshot_descends_by_instant
        (written : Z) (all_items : dict) (before after : list NewsItem)
        (x y : NewsItem) (ix iy : Z) :
  items (out_data written all_items) = before ++ x :: after ->
  In y after ->
  existing_instant x = Some ix ->
  existing_instant y = Some iy ->
  (total_seconds iy <= total_seconds ix)%Z /\
  (ordered_floats all_items = true -> (ix < iy)%Z ->
   total_seconds ix = total_seconds iy).
Proof.
  intros Hsplit Hy Hx Hiy. simpl in Hsplit.
  pose proof (sort_desc_sorted sort_key (dict_values all_items)) as Hs.
  rewrite Hsplit in Hs.
  pose proof (sorted_after sort_key before after x Hs y Hy) as Hle.
  rewrite (sort_key_dated x ix Hx), (sort_key_dated y iy Hiy) in Hle.
  split; [exact Hle|]. intros Hord Hlt.
  assert (Hin : forall z, In z (before ++ x :: after) ->
                          In z (dict_values all_items)).
  { intros z Hz. apply items_list_In. unfold items_list. now rewrite Hsplit. }
  assert (Hxin : In x (dict_values all_items))
    by (apply Hin, in_or_app; right; now left).
  assert (Hyin : In y (dict_values all_items))
    by (apply Hin, in_or_app; right; now right).
  pose proof (ordered_floats_In all_items x y ix iy Hord Hxin Hyin Hx Hiy).
  lia.
Qed.

(** X15. The sort is stable: items with the same sort key, and so all the
    items without a usable date, are written in the order in which their
    links entered the mapping. *)
Theorem equal_keys_keep_mapping_order (written : Z) (all_items : dict) (c : Z) :
  filter (fun it => (sort_key it =? c)%Z) (items (out_data written all_items)) =
  filter (fun it => (sort_key it =? c)%Z) (dict_values all_items).
Proof.
  simpl. apply sort_desc_filter.
Qed.

End WriterMore.

(** ** The further properties on the sample inputs *)

Module MoreRuns.
Import Fixture.

Example sample_build :
  build (lib := lib) (text := PyStr.ascii_text) now now Cases.sample_body
        sample_fetch
  = Ok Cases.sample_snapshot.
Proof. vm_compute. reflexivity. Qed.

Example naive_stored_raises :
  process_entry (lib := lib) (cutoff_of now) "B" "malware" Cases.naive_items
                (entry "P2" "http://e.com/p/" (Some "2024-02-20T00:00:00+00:00"))
  = Raise TypeError.
Proof. vm_compute. reflexivity. Qed.

Example tied_items_order :
  map item_title (items (out_data (lib := lib) now Cases.tied_items))
  = ["U"; "V"; "R"; "S"].
Proof. vm_compute. reflexivity. Qed.


Lemma process_entry_raises_iff_witness :
  process_entry (lib := lib) (cutoff_of now) "B" "malware" Cases.naive_items
                (entry "P2" "http://e.com/p/" (Some "2024-02-20T00:00:00+00:00"))
  = Raise TypeError /\
  process_entry (lib := lib) (cutoff_of now) "A" "general" sample_items
                Cases.year_zero
  = Raise TimeError.
Proof.
  split.
  - apply (proj1 (proj2 (process_entry_raises_iff
                           (lib := lib) now "B" "malware" Cases.naive_items
                           (entry "P2" "http://e.com/p/"
                                  (Some "2024-02-20T00:00:00+00:00"))))).
    exists (item "P2" "http://e.com/p/" "B" "malware"
                 (Some "2024-02-20T00:00:00+00:00")),
           (item "P" "http://e.com/p" "A" "general" (Some "2024-02-10T00:00:00")),
           (mk_datetime 1707523200000000 None),
           1708387200000000%Z.
    repeat split; try reflexivity. vm_compute. discriminate.
  - apply (proj1 (process_entry_raises_iff
                    (lib := lib) now "A" "general" sample_items Cases.year_zero)).
    repeat split.
Defined.

Lemma item_at_cutoff_is_appended_witness :
  process_entry (lib := lib) (cutoff_of now) "A" "general" sample_items
                Cases.at_cutoff
  = Ok (sample_items
          ++ [(canonical_link "http://e.com/c/",
               item "C" "http://e.com/c/" "A" "general"
                    (Some "2024-01-31T12:00:00+00:00"))]).
Proof.
  apply (item_at_cutoff_is_appended
           (lib := lib) now "A" "general" sample_items Cases.at_cutoff
           (item "C" "http://e.com/c/" "A" "general"
                 (Some "2024-01-31T12:00:00+00:00"))
           1706702400000000%Z).
  - reflexivity.
  - reflexivity.
  - vm_compute. discriminate.
  - reflexivity.
Defined.

Lemma undated_pair_last_one_stays_witness :
  (m <- merge_item (lib := lib) [] Cases.dated (pub_dt_of (lib := lib) Cases.dated) ;;
   merge_item (lib := lib) m Cases.undated (pub_dt_of (lib := lib) Cases.undated))
  = Ok ([] ++ [(canonical_link (item_link Cases.undated), Cases.undated)]) /\
  (m <- merge_item (lib := lib) [] Cases.undated
                   (pub_dt_of (lib := lib) Cases.undated) ;;
   merge_item (lib := lib) m Cases.dated (pub_dt_of (lib := lib) Cases.dated))
  = Ok ([] ++ [(canonical_link (item_link Cases.undated), Cases.dated)]).
Proof.
  apply (undated_pair_last_one_stays (lib := lib) [] Cases.dated Cases.undated);
    reflexivity.
Defined.

Lemma keys_only_grow_witness :
  NoDup (dict_keys sample_items) /\
  exists added, dict_keys sample_items = dict_keys [("http://e.com/p", Cases.dated)] ++ added.
Proof.
  apply (keys_only_grow (lib := lib) (cutoff_of now) sample_fetch sample_feeds
                        [("http://e.com/p", Cases.dated)] sample_items).
  - repeat constructor. intros [].
  - vm_compute. reflexivity.
Defined.

Lemma stored_items_come_from_feeds_witness :
  exists feed_title xml_url category entry,
    In (feed_title, xml_url, category) sample_feeds /\
    In entry (sample_fetch xml_url) /\
    parse_entry (lib := lib) entry feed_title category
    = Ok (Some (item "U" "http://e.com/u" "B" "malware"
                     (Some "2024-02-25T06:00:00+02:00"))) /\
    item_source (item "U" "http://e.com/u" "B" "malware"
                      (Some "2024-02-25T06:00:00+02:00")) = feed_title /\
    item_category (item "U" "http://e.com/u" "B" "malware"
                        (Some "2024-02-25T06:00:00+02:00")) = category.
Proof.
  apply (stored_items_come_from_feeds
           (lib := lib) now sample_fetch sample_feeds sample_items
           "http://e.com/u").
  - vm_compute. reflexivity.
  - right. right. now left.
Defined.

Lemma snapshot_one_item_per_link_witness :
  NoDup (map (fun it => canonical_link (item_link it))
             (items Cases.sample_snapshot)) /\
  total_items Cases.sample_snapshot = List.length (items Cases.sample_snapshot) /\
  (exists all_items,
      aggregate (lib := lib) now sample_fetch
                (parse_opml (text := PyStr.ascii_text) Cases.sample_body)
      = Ok all_items /\
      total_items Cases.sample_snapshot = List.length (dict_keys all_items) /\
      Permutation (items Cases.sample_snapshot) (dict_values all_items)) /\
  cutoff_instant now = (now - days_back Cases.sample_snapshot * 86400000000)%Z.
Proof.
  apply (snapshot_one_item_per_link
           (lib := lib) (text := PyStr.ascii_text) now now Cases.sample_body
           sample_fetch
           Cases.sample_snapshot).
  vm_compute. reflexivity.
Defined.

(** Every version of [http://e.com/p] the sample feeds deliver is dated. *)
Lemma sample_versions_dated (x : NewsItem) :
  delivers (lib := lib) sample_fetch sample_feeds x ->
  key_of x = "http://e.com/p" ->
  incoming_instant (lib := lib) x <> None.
Proof.
  intros [ft [url [cat [e [Hf [He Hp]]]]]] Hk.
  destruct Hf as [Hf | [Hf | []]]; injection Hf as <- <- <-;
    vm_compute in He;
    repeat match goal with
           | H : _ \/ _ |- _ => destruct H as [H | H]
           | H : False |- _ => destruct H
           end;
    subst e; vm_compute in Hp; try discriminate Hp;
    injection Hp as <-; vm_compute in Hk; try discriminate Hk;
    vm_compute; discriminate.
Qed.

Lemma latest_dated_item_is_stored_witness :
  delivers (lib := lib) sample_fetch sample_feeds
           (item "P2" "http://e.com/p/" "B" "malware"
                 (Some "2024-02-20T00:00:00+00:00")) /\
  key_of (item "P2" "http://e.com/p/" "B" "malware"
               (Some "2024-02-20T00:00:00+00:00")) = "http://e.com/p" /\
  exists e,
    incoming_instant (lib := lib)
                     (item "P2" "http://e.com/p/" "B" "malware"
                           (Some "2024-02-20T00:00:00+00:00")) = Some e /\
    forall x p, delivers (lib := lib) sample_fetch sample_feeds x ->
                key_of x = "http://e.com/p" ->
                incoming_instant (lib := lib) x = Some p -> (p <= e)%Z.
Proof.
  apply (latest_dated_item_is_stored
           (lib := lib) now sample_fetch sample_feeds sample_items).
  - reflexivity.
  - vm_compute. reflexivity.
  - now left.
  - exact sample_versions_dated.
Defined.

(** No two versions of [http://e.com/p] in the sample feeds have the same
    instant. *)
Lemma sample_versions_distinct (x y : NewsItem) :
  delivers (lib := lib) sample_fetch sample_feeds x ->
  delivers (lib := lib) sample_fetch sample_feeds y ->
  key_of x = "http://e.com/p" -> key_of y = "http://e.com/p" ->
  incoming_instant (lib := lib) x = incoming_instant (lib := lib) y -> x = y.
Proof.
  intros [ft [url [cat [e [Hf [He Hp]]]]]] [ft' [url' [cat' [e' [Hf' [He' Hp']]]]]]
         Hk Hk' Heq.
  destruct Hf as [Hf | [Hf | []]]; injection Hf as <- <- <-;
    destruct Hf' as [Hf' | [Hf' | []]]; injection Hf' as <- <- <-;
    vm_compute in He; vm_compute in He';
    repeat match goal with
           | H : _ \/ _ |- _ => destruct H as [H | H]
           | H : False |- _ => destruct H
           end;
    subst e e'; vm_compute in Hp; vm_compute in Hp';
    try discriminate Hp; try discriminate Hp';
    injection Hp as <-; injection Hp' as <-;
    vm_compute in Hk; vm_compute in Hk';
    try discriminate Hk; try discriminate Hk';
    vm_compute in Heq; try discriminate Heq; reflexivity.
Qed.

Lemma dated_link_ignores_feed_order_witness :
  item "P2" "http://e.com/p/" "B" "malware" (Some "2024-02-20T00:00:00+00:00")
  = item "P2" "http://e.com/p/" "B" "malware" (Some "2024-02-20T00:00:00+00:00").
Proof.
  apply (dated_link_ignores_feed_order
           (lib := lib) now sample_fetch sample_feeds (rev sample_feeds)
           sample_items
           [("http://e.com/p",
             item "P2" "http://e.com/p/" "B" "malware"
                  (Some "2024-02-20T00:00:00+00:00"));
            ("http://e.com/r", item "R" "http://e.com/r" "A" "general" None);
            ("http://e.com/u",
             item "U" "http://e.com/u" "B" "malware"
                  (Some "2024-02-25T06:00:00+02:00"))]
           "http://e.com/p").
  - reflexivity.
  - apply Permutation_rev.
  - vm_compute. reflexivity.
  - vm_compute. reflexivity.
  - now left.
  - now left.
  - exact sample_versions_dated.
  - exact sample_versions_distinct.
Defined.

(** The mapping of the year 2300: the more recent item is written
    second, and the two instants have the same float. *)
Lemma snapshot_descends_by_instant_witness :
  (total_seconds (TimeLib := lib) 10413792000000002
   <= total_seconds (TimeLib := lib) 10413792000000001)%Z /\
  (ordered_floats (lib := lib) Cases.year_2300_items = true ->
   (10413792000000001 < 10413792000000002)%Z ->
   total_seconds (TimeLib := lib) 10413792000000001
   = total_seconds (TimeLib := lib) 10413792000000002).
Proof.
  apply (snapshot_descends_by_instant
           (lib := lib) now Cases.year_2300_items []
           [item "Y" "http://e.com/y" "A" "general"
                 (Some "2300-01-01T00:00:00.000002+00:00")]
           (item "X" "http://e.com/x" "A" "general"
                 (Some "2300-01-01T00:00:00.000001+00:00"))
           (item "Y" "http://e.com/y" "A" "general"
                 (Some "2300-01-01T00:00:00.000002+00:00"))).
  - vm_compute. reflexivity.
  - now left.
  - vm_compute. reflexivity.
  - vm_compute. reflexivity.
Defined.

End MoreRuns.
